(** * Instance migration transport (lxd/migrate_instance.go)

    A shallow embedding of the source and sink migration sessions:
    [newMigrationSource], [migrationSourceWs.Do], [newMigrationSink] and
    [migrationSink.Do].  Go pointers to the session become an explicit
    session value threaded through a small state monad together with the
    trace of observable effects (log lines, dials, notifications, barrier
    cancellation, driver invocations).

    The second part embeds the pure helpers of
    lxd/network/network_utils.go (ports, random names, VLAN devices,
    subnets) over byte strings and byte slices, with the operating system
    and the random source as parameters. *)

From Stdlib Require Import Ascii.
From Stdlib Require Strings.Byte.
From stdpp Require Import base option list strings gmap pretty.

Open Scope string_scope.
Open Scope list_scope.

(** ** Errors and fallible results *)

(** Go [error] values.  [Errorf] is [fmt.Errorf] without a wrapped cause,
    [Wrapf msg e] is [fmt.Errorf(msg + ": %w", e)].  The two sentinels are
    [migration.ErrNoLiveMigrationSource] and
    [migration.ErrNoLiveMigrationTarget]. *)
Inductive error : Type :=
| Errorf (msg : string)
| Wrapf (msg : string) (cause : error)
| ErrNoLiveMigrationSource
| ErrNoLiveMigrationTarget.

#[global] Instance error_eq_dec : EqDecision error.
Proof. solve_decision. Defined.


(** A Go [(value, error)] pair where exactly one side is meaningful. *)
Inductive result (A : Type) : Type :=
| Ok (a : A)
| Err (e : error).
Arguments Ok {A} a.
Arguments Err {A} e.

Definition isOk {A} (r : result A) : bool :=
  match r with Ok _ => true | Err _ => false end.

#[global] Instance result_ret : MRet result := fun _ a => Ok a.
#[global] Instance result_bind : MBind result := fun _ _ k r =>
  match r with
  | Ok a => k a
  | Err e => Err e
  end.

(** [if err != nil { return nil, fmt.Errorf(msg + ": %w", err) }] *)
Definition orWrap {A} (msg : string) (r : result A) : result A :=
  match r with
  | Ok a => Ok a
  | Err e => Err (Wrapf msg e)
  end.

(** ** Instances, connections, host environment *)

Inductive instancetype : Type := Container | VM.

#[global] Instance instancetype_eq_dec : EqDecision instancetype.
Proof. solve_decision. Defined.

(** The part of [instance.Instance] the transport looks at. *)
Record Instance : Type := {
  inst_project : string;
  inst_name : string;
  inst_type : instancetype;
  inst_running : bool
}.

Definition isContainer (i : Instance) : bool :=
  bool_decide (inst_type i = Container).

(** A websocket connection: an identity and the number of [Close()] calls
    it has received. *)
Record WsConn : Type := {
  conn_id : nat;
  conn_closes : nat
}.

Definition Close (c : WsConn) : WsConn :=
  {| conn_id := conn_id c; conn_closes := S (conn_closes c) |}.

Definition isClosed (c : WsConn) : bool := bool_decide (0 < conn_closes c).

(** [shared.WebsocketIO{Conn: c}] *)
Record WebsocketIO : Type := { Conn : WsConn }.

(** What construction reads from the host: the n-th call of
    [shared.RandomCryptoString] and [exec.LookPath]. *)
Record Host : Type := {
  RandomCryptoString : nat -> result string;
  LookPath : string -> result string
}.

(** Modelled from the spec: the keys of the pull-mode secrets table
    ([api.SecretNameControl], [api.SecretNameFilesystem],
    [api.SecretNameState]) are the named slots control, filesystem and
    state. *)
Definition SecretNameControl : string := "control".
Definition SecretNameFilesystem : string := "filesystem".
Definition SecretNameState : string := "state".

(** ** Sessions *)

Record migrationFields : Type := {
  controlSecret : string;
  controlConn : option WsConn;
  stateSecret : string;
  stateConn : option WsConn;
  fsSecret : string;
  fsConn : option WsConn;
  live : bool;
  instanceOnly : bool;
  instance : Instance;
  allowInconsistent : bool
}.

Definition zeroFields (inst : Instance) : migrationFields :=
  {| controlSecret := ""; controlConn := None;
     stateSecret := ""; stateConn := None;
     fsSecret := ""; fsConn := None;
     live := false; instanceOnly := false;
     instance := inst; allowInconsistent := false |}.

Definition set_controlSecret (v : string) (f : migrationFields) :=
  {| controlSecret := v; controlConn := controlConn f;
     stateSecret := stateSecret f; stateConn := stateConn f;
     fsSecret := fsSecret f; fsConn := fsConn f;
     live := live f; instanceOnly := instanceOnly f;
     instance := instance f; allowInconsistent := allowInconsistent f |}.

Definition set_fsSecret (v : string) (f : migrationFields) :=
  {| controlSecret := controlSecret f; controlConn := controlConn f;
     stateSecret := stateSecret f; stateConn := stateConn f;
     fsSecret := v; fsConn := fsConn f;
     live := live f; instanceOnly := instanceOnly f;
     instance := instance f; allowInconsistent := allowInconsistent f |}.

Definition set_stateSecret (v : string) (f : migrationFields) :=
  {| controlSecret := controlSecret f; controlConn := controlConn f;
     stateSecret := v; stateConn := stateConn f;
     fsSecret := fsSecret f; fsConn := fsConn f;
     live := live f; instanceOnly := instanceOnly f;
     instance := instance f; allowInconsistent := allowInconsistent f |}.

Definition set_live (v : bool) (f : migrationFields) :=
  {| controlSecret := controlSecret f; controlConn := controlConn f;
     stateSecret := stateSecret f; stateConn := stateConn f;
     fsSecret := fsSecret f; fsConn := fsConn f;
     live := v; instanceOnly := instanceOnly f;
     instance := instance f; allowInconsistent := allowInconsistent f |}.

Definition set_instanceOnly (v : bool) (f : migrationFields) :=
  {| controlSecret := controlSecret f; controlConn := controlConn f;
     stateSecret := stateSecret f; stateConn := stateConn f;
     fsSecret := fsSecret f; fsConn := fsConn f;
     live := live f; instanceOnly := v;
     instance := instance f; allowInconsistent := allowInconsistent f |}.

Definition set_allowInconsistent (v : bool) (f : migrationFields) :=
  {| controlSecret := controlSecret f; controlConn := controlConn f;
     stateSecret := stateSecret f; stateConn := stateConn f;
     fsSecret := fsSecret f; fsConn := fsConn f;
     live := live f; instanceOnly := instanceOnly f;
     instance := instance f; allowInconsistent := v |}.

Definition set_controlConn (v : option WsConn) (f : migrationFields) :=
  {| controlSecret := controlSecret f; controlConn := v;
     stateSecret := stateSecret f; stateConn := stateConn f;
     fsSecret := fsSecret f; fsConn := fsConn f;
     live := live f; instanceOnly := instanceOnly f;
     instance := instance f; allowInconsistent := allowInconsistent f |}.

Definition set_fsConn (v : option WsConn) (f : migrationFields) :=
  {| controlSecret := controlSecret f; controlConn := controlConn f;
     stateSecret := stateSecret f; stateConn := stateConn f;
     fsSecret := fsSecret f; fsConn := v;
     live := live f; instanceOnly := instanceOnly f;
     instance := instance f; allowInconsistent := allowInconsistent f |}.

Definition set_stateConn (v : option WsConn) (f : migrationFields) :=
  {| controlSecret := controlSecret f; controlConn := controlConn f;
     stateSecret := stateSecret f; stateConn := v;
     fsSecret := fsSecret f; fsConn := fsConn f;
     live := live f; instanceOnly := instanceOnly f;
     instance := instance f; allowInconsistent := allowInconsistent f |}.

(** [cancel.Canceller]: [Done()] is readable once [Cancel()] was called. *)
Record Canceller : Type := { cancelled : bool }.

(** [cancel.New(context.Background())] *)
Definition cancel_New : Canceller := {| cancelled := false |}.
Definition Cancel (c : Canceller) : Canceller := {| cancelled := true |}.

Record migrationSourceWs : Type := {
  src_fields : migrationFields;
  src_allConnected : Canceller;
  src_clusterMoveSourceName : string
}.

(** [websocket.Dialer], opaque to this layer. *)
Inductive wsDialer : Type := WsDialer (id : nat).

Record migrationSinkArgs : Type := {
  arg_URL : string;
  arg_Dialer : wsDialer;
  arg_Instance : Instance;
  arg_InstanceOnly : bool;
  arg_ClusterMoveSourceName : string;
  arg_Secrets : gmap string string;
  arg_Push : bool;
  arg_Live : bool;
  arg_Refresh : bool
}.

Record migrationSink : Type := {
  sink_fields : migrationFields;
  sink_url : string;
  sink_dialer : wsDialer;
  sink_allConnected : option Canceller;
  sink_clusterMoveSourceName : string;
  sink_push : bool;
  sink_refresh : bool
}.

Definition sink_with_fields (f : migrationFields) (c : migrationSink) :=
  {| sink_fields := f; sink_url := sink_url c; sink_dialer := sink_dialer c;
     sink_allConnected := sink_allConnected c;
     sink_clusterMoveSourceName := sink_clusterMoveSourceName c;
     sink_push := sink_push c; sink_refresh := sink_refresh c |}.

Definition sink_with_allConnected (a : option Canceller) (c : migrationSink) :=
  {| sink_fields := sink_fields c; sink_url := sink_url c;
     sink_dialer := sink_dialer c; sink_allConnected := a;
     sink_clusterMoveSourceName := sink_clusterMoveSourceName c;
     sink_push := sink_push c; sink_refresh := sink_refresh c |}.

Definition src_with_fields (f : migrationFields) (s : migrationSourceWs) :=
  {| src_fields := f; src_allConnected := src_allConnected s;
     src_clusterMoveSourceName := src_clusterMoveSourceName s |}.

Definition src_with_allConnected (a : Canceller) (s : migrationSourceWs) :=
  {| src_fields := src_fields s; src_allConnected := a;
     src_clusterMoveSourceName := src_clusterMoveSourceName s |}.

(** ** Construction *)

(** [newMigrationSource]: control and filesystem secrets are drawn first;
    a stateful migration of a running instance is live; a live container
    needs criu on the search path and gets a state secret. *)
Definition newMigrationSource (h : Host) (inst : Instance)
    (stateful instanceOnly allowInconsistent : bool)
    (clusterMoveSourceName : string) : result migrationSourceWs :=
  let f := set_allowInconsistent allowInconsistent (zeroFields inst) in
  let f := set_instanceOnly instanceOnly f in
  cs ← orWrap "Failed creating migration source secret for control websocket"
         (RandomCryptoString h 0);
  let f := set_controlSecret cs f in
  fs ← orWrap "Failed creating migration source secret for filesystem websocket"
         (RandomCryptoString h 1);
  let f := set_fsSecret fs f in
  f ← (if stateful && inst_running inst then
         let f := set_live true f in
         if bool_decide (inst_type inst = Container) then
           match LookPath h "criu" with
           | Err _ => Err ErrNoLiveMigrationSource
           | Ok _ =>
               ss ← orWrap "Failed creating migration source secret for state websocket"
                      (RandomCryptoString h 2);
               Ok (set_stateSecret ss f)
           end
         else Ok f
       else Ok f);
  Ok {| src_fields := f;
        src_allConnected := cancel_New;
        src_clusterMoveSourceName := clusterMoveSourceName |}.

(** [v, ok = m[k]]: the zero value with [ok = false] when the key is absent. *)
Definition mapGet (m : gmap string string) (k : string) : string * bool :=
  match m !! k with
  | Some v => (v, true)
  | None => ("", false)
  end.

(** [newMigrationSink]: push mode draws its own secrets, pull mode reads
    them from [args.Secrets]; a live container needs criu. *)
Definition newMigrationSink (h : Host) (args : migrationSinkArgs)
    : result migrationSink :=
  let f := set_instanceOnly (arg_InstanceOnly args)
             (zeroFields (arg_Instance args)) in
  let allConnected :=
    if arg_Push args then Some cancel_New else None in
  f ← (if arg_Push args then
         cs ← orWrap "Failed creating migration sink secret for control websocket"
                (RandomCryptoString h 0);
         let f := set_controlSecret cs f in
         fs ← orWrap "Failed creating migration sink secret for filesystem websocket"
                (RandomCryptoString h 1);
         let f := set_fsSecret fs f in
         let f := set_live (arg_Live args) f in
         if live f then
           ss ← orWrap "Failed creating migration sink secret for state websocket"
                  (RandomCryptoString h 2);
           Ok (set_stateSecret ss f)
         else Ok f
       else
         let '(cs, ok) := mapGet (arg_Secrets args) SecretNameControl in
         let f := set_controlSecret cs f in
         if negb ok then
           Err (Errorf "Missing migration sink secret for control websocket")
         else
         let '(fs, ok) := mapGet (arg_Secrets args) SecretNameFilesystem in
         let f := set_fsSecret fs f in
         if negb ok then
           Err (Errorf "Missing migration sink secret for filesystem websocket")
         else
         let '(ss, ok) := mapGet (arg_Secrets args) SecretNameState in
         let f := set_stateSecret ss f in
         Ok (set_live (ok || arg_Live args) f));
  let sink :=
    {| sink_fields := f;
       sink_url := arg_URL args;
       sink_dialer := arg_Dialer args;
       sink_allConnected := allConnected;
       sink_clusterMoveSourceName := arg_ClusterMoveSourceName args;
       sink_push := arg_Push args;
       sink_refresh := arg_Refresh args |} in
  if bool_decide (inst_type (instance f) = Container) then
    let err := LookPath h "criu" in
    if live f && negb (isOk err) then Err ErrNoLiveMigrationTarget
    else Ok sink
  else Ok sink.

(** ** Effects of [Do()] *)

(** [operations.Operation] / [operationlock.InstanceOperation] handles. *)
Inductive opHandle : Type := OpHandle (id : nat).

(** The bound method values [s.send] and [s.recv]. *)
Inductive controlFn : Type := sessionSend | sessionRecv.

(** [instance.MigrateArgs].  The Go closures capture the session pointer
    and read its connection fields when the driver calls them, so they are
    functions of the session's fields at that moment. *)
Record MigrateArgs : Type := {
  ControlSend : controlFn;
  ControlReceive : controlFn;
  StateConn : migrationFields -> option WebsocketIO;
  FilesystemConn : migrationFields -> option WebsocketIO;
  Snapshots : bool;
  Live : bool;
  Disconnect : migrationFields -> migrationFields;
  ClusterMoveSourceName : string
}.

Record MigrateSendArgs : Type := {
  send_MigrateArgs : MigrateArgs;
  AllowInconsistent : bool
}.

Record MigrateReceiveArgs : Type := {
  recv_MigrateArgs : MigrateArgs;
  InstanceOperation : opHandle;
  Refresh : bool
}.

(** Observable effects, in program order. *)
Inductive event : Type :=
| LogInfo (msg : string)
| LogError (msg : string) (err : error)
| BarrierCancel
| Dial (secret : string)
| SendControl (err : error)
| RunDisconnect
| SetOperation (op : opHandle)
| MigrateSend (args : MigrateSendArgs)
| MigrateReceive (args : MigrateReceiveArgs).

(** State monad over the session [St] and the trace. *)
Definition M (St A : Type) : Type := St * list event -> A * (St * list event).

#[global] Instance M_ret {St} : MRet (M St) := fun _ a w => (a, w).
#[global] Instance M_bind {St} : MBind (M St) := fun _ _ k m w =>
  let '(a, w') := m w in k a w'.

Definition get {St} : M St St := fun w => (w.1, w).
Definition modify {St} (g : St -> St) : M St unit := fun w => (tt, (g w.1, w.2)).
Definition emit {St} (e : event) : M St unit := fun w => (tt, (w.1, w.2 ++ [e])).

(** [defer d] followed by [body]: [d] runs when [body] returns. *)
Definition defer {St A} (d : M St unit) (body : M St A) : M St A :=
  r ← body; d;; mret r.

(** Run from a session with an empty trace. *)
Definition run {St A} (m : M St A) (s : St) : A * (St * list event) := m (s, []).

(** Both session kinds embed [migrationFields]. *)
Class Session (St : Type) : Type := {
  fieldsOf : St -> migrationFields;
  withFields : migrationFields -> St -> St
}.

#[global] Instance source_Session : Session migrationSourceWs :=
  {| fieldsOf := src_fields; withFields := src_with_fields |}.
#[global] Instance sink_Session : Session migrationSink :=
  {| fieldsOf := sink_fields; withFields := sink_with_fields |}.

Definition modifyFields {St} `{!Session St} (g : migrationFields -> migrationFields)
    : M St unit :=
  modify (fun s => withFields (g (fieldsOf s)) s).

(** ** Channel lifecycle and barrier *)

Inductive role : Type := Control | Filesystem | State.

#[global] Instance role_eq_dec : EqDecision role.
Proof. solve_decision. Defined.

Definition connOf (f : migrationFields) (r : role) : option WsConn :=
  match r with
  | Control => controlConn f
  | Filesystem => fsConn f
  | State => stateConn f
  end.

Definition setConn (r : role) (c : option WsConn) (f : migrationFields)
    : migrationFields :=
  match r with
  | Control => set_controlConn c f
  | Filesystem => set_fsConn c f
  | State => set_stateConn c f
  end.

(** [Close()] on a connection that has not been closed yet. *)
Definition closeOnce (c : option WsConn) : option WsConn :=
  match c with
  | Some c => Some (if isClosed c then c else Close c)
  | None => None
  end.

(** Modelled from the spec: [migrationFields.disconnect] is not part of
    the file; it is idempotent and closes every non-nil bound connection
    exactly once regardless of how many times it is invoked. *)
Definition disconnectFields (f : migrationFields) : migrationFields :=
  set_stateConn (closeOnce (stateConn f))
    (set_fsConn (closeOnce (fsConn f))
       (set_controlConn (closeOnce (controlConn f)) f)).

Definition disconnect {St} `{!Session St} : M St unit :=
  emit RunDisconnect;; modifyFields disconnectFields.

(** Modelled from the spec: [migrationFields.sendControl] is not part of
    the file; the notification over the control channel is fire-and-forget,
    its own failure is never fatal and never replaces the original error. *)
Definition sendControl {St} (err : error) : M St unit :=
  emit (SendControl err).

(** Modelled from the spec: the channel barrier's [bind(role, conn)] is
    not part of the file; it records the connection and signals completion
    once every required role is bound.  Control and filesystem are always
    required, state iff the transfer is live and the workload a container. *)
Definition required (f : migrationFields) (r : role) : bool :=
  match r with
  | Control | Filesystem => true
  | State => live f && isContainer (instance f)
  end.

Definition allBound (f : migrationFields) : bool :=
  forallb (fun r => implb (required f r) (bool_decide (is_Some (connOf f r))))
    [Control; Filesystem; State].

(** An inbound bind: time since [Do()] started waiting (nanoseconds, as
    [time.Duration]), the role and the upgraded connection. *)
Record bindEvent : Type := {
  bind_at : N;
  bind_role : role;
  bind_conn : WsConn
}.

Definition time_Second : N := 1000000000.

(** [time.Second * 10] *)
Definition connectTimeout : N := time_Second * 10.

Inductive selectCase : Type := TimerFired | AllConnectedDone.

(** The [select] between [time.After(timeout)] and [allConnected.Done()]
    against a chronological list of binds: the barrier is done as soon as
    all required roles are bound; a bind that would arrive at or after the
    deadline is never seen. *)
Fixpoint awaitBinds (timeout : N) (evs : list bindEvent) (f : migrationFields)
    : migrationFields * selectCase :=
  if allBound f then (f, AllConnectedDone)
  else
    match evs with
    | [] => (f, TimerFired)
    | e :: evs' =>
        if (bind_at e <? timeout)%N
        then awaitBinds timeout evs' (setConn (bind_role e) (Some (bind_conn e)) f)
        else (f, TimerFired)
    end.

(** ** What the peer and the driver do during [Do()] *)

(** The driver's run of [MigrateSend] / [MigrateReceive]: how often it
    calls the [Disconnect] callback and the error it returns. *)
Record driverRun : Type := {
  drv_disconnects : nat;
  drv_result : option error
}.

Record Peer : Type := {
  binds : list bindEvent;
  connectWithSecret : nat -> string -> result WsConn;
  driver : driverRun
}.

(** ** Closures handed to the driver *)

Definition stateConnFunc (f : migrationFields) : option WebsocketIO :=
  match stateConn f with
  | None => None
  | Some c => Some {| Conn := c |}
  end.

Definition filesystemConnFunc (f : migrationFields) : option WebsocketIO :=
  match fsConn f with
  | None => None
  | Some c => Some {| Conn := c |}
  end.

(** The [Disconnect: func() { ... }] literal, identical in both [Do]s. *)
Definition disconnectFunc (f : migrationFields) : migrationFields :=
  let f := match fsConn f with
           | Some c => set_fsConn (Some (Close c)) f
           | None => f
           end in
  match stateConn f with
  | Some c => set_stateConn (Some (Close c)) f
  | None => f
  end.

Definition migrateArgs (f : migrationFields) (clusterMoveSourceName : string)
    : MigrateArgs :=
  {| ControlSend := sessionSend;
     ControlReceive := sessionRecv;
     StateConn := stateConnFunc;
     FilesystemConn := filesystemConnFunc;
     Snapshots := negb (instanceOnly f);
     Live := live f;
     Disconnect := disconnectFunc;
     ClusterMoveSourceName := clusterMoveSourceName |}.

(** The driver runs with the callback it was given. *)
Definition driverBody {St} `{!Session St} (d : driverRun) (a : MigrateArgs)
    : M St (option error) :=
  modifyFields (Nat.iter (drv_disconnects d) (Disconnect a));;
  mret (drv_result d).

Definition logInfo {St} (msg : string) : M St unit := emit (LogInfo msg).
Definition logError {St} (msg : string) (e : error) : M St unit :=
  emit (LogError msg e).

Definition errTimedOut : error :=
  Errorf "Timed out waiting for migration connections".

(** ** Source session *)

Definition source_select (p : Peer) : M migrationSourceWs selectCase :=
  fun w =>
    let '(f, sel) := awaitBinds connectTimeout (binds p) (src_fields w.1) in
    let s := src_with_fields f w.1 in
    match sel with
    | AllConnectedDone =>
        (sel, (src_with_allConnected (Cancel (src_allConnected s)) s, w.2))
    | TimerFired => (sel, (s, w.2))
    end.

Definition source_MigrateSend (p : Peer) (a : MigrateSendArgs)
    : M migrationSourceWs (option error) :=
  emit (MigrateSend a);; driverBody (driver p) (send_MigrateArgs a).

(** [migrationSourceWs.Do] *)
Definition source_Do (p : Peer) (migrateOp : opHandle)
    : M migrationSourceWs (option error) :=
  logInfo "Waiting for migration channel connections on source";;
  sel ← source_select p;
  match sel with
  | TimerFired =>
      modify (fun s => src_with_allConnected (Cancel (src_allConnected s)) s);;
      emit BarrierCancel;;
      mret (Some errTimedOut)
  | AllConnectedDone =>
      logInfo "Migration channels connected on source";;
      defer (logInfo "Migration channels disconnected on source")
        (defer disconnect
           (emit (SetOperation migrateOp);;
            s ← get;
            err ← source_MigrateSend p
                    {| send_MigrateArgs :=
                         migrateArgs (src_fields s) (src_clusterMoveSourceName s);
                       AllowInconsistent := allowInconsistent (src_fields s) |};
            match err with
            | Some e =>
                logError "Failed migration on source" e;;
                mret (Some (Wrapf "Failed migration on source" e))
            | None => mret None
            end))
  end.

(** ** Sink session *)

Definition sink_select (p : Peer) : M migrationSink selectCase :=
  fun w =>
    let '(f, sel) := awaitBinds connectTimeout (binds p) (sink_fields w.1) in
    let c := sink_with_fields f w.1 in
    match sel with
    | AllConnectedDone =>
        (sel, (sink_with_allConnected (Cancel <$> sink_allConnected c) c, w.2))
    | TimerFired => (sel, (c, w.2))
    end.

(** [c.xConn, err = c.connectWithSecret(secret)] for the n-th dial; a
    refused dial hands back a nil connection with its error. *)
Definition dial (p : Peer) (n : nat) (r : role) (secret : string)
    : M migrationSink (option error) :=
  emit (Dial secret);;
  match connectWithSecret p n secret with
  | Ok c => modifyFields (setConn r (Some c));; mret None
  | Err e => modifyFields (setConn r None);; mret (Some e)
  end.

Definition sink_MigrateReceive (p : Peer) (a : MigrateReceiveArgs)
    : M migrationSink (option error) :=
  emit (MigrateReceive a);; driverBody (driver p) (recv_MigrateArgs a).

(** [migrationSink.Do] from "Migration channels connected on target" on. *)
Definition sink_transfer (p : Peer) (instOp : opHandle)
    : M migrationSink (option error) :=
  logInfo "Migration channels connected on target";;
  defer (logInfo "Migration channels disconnected on target")
    (c ← get;
     err ← sink_MigrateReceive p
             {| recv_MigrateArgs :=
                  migrateArgs (sink_fields c) (sink_clusterMoveSourceName c);
                InstanceOperation := instOp;
                Refresh := sink_refresh c |};
     match err with
     | Some e =>
         logError "Failed migration on target" e;;
         mret (Some (Wrapf "Failed migration on target" e))
     | None => mret None
     end).

(** [migrationSink.Do].  The two [if c.push] blocks are one branch here;
    secrets and the live flag are read from the session as it was on
    entry, dials only change connections. *)
Definition sink_Do (p : Peer) (instOp : opHandle)
    : M migrationSink (option error) :=
  logInfo "Waiting for migration channel connections on target";;
  c ← get;
  if sink_push c then
    sel ← sink_select p;
    match sel with
    | TimerFired =>
        modify (fun c => sink_with_allConnected (Cancel <$> sink_allConnected c) c);;
        emit BarrierCancel;;
        mret (Some errTimedOut)
    | AllConnectedDone =>
        defer disconnect (sink_transfer p instOp)
    end
  else
    err ← dial p 0 Control (controlSecret (sink_fields c));
    match err with
    | Some e =>
        mret (Some (Wrapf "Failed connecting migration control sink socket" e))
    | None =>
        defer disconnect
          (err ← dial p 1 Filesystem (fsSecret (sink_fields c));
           match err with
           | Some e =>
               let err := Wrapf "Failed connecting migration filesystem sink socket" e in
               sendControl err;;
               mret (Some err)
           | None =>
               if live (sink_fields c) && isContainer (instance (sink_fields c)) then
                 err ← dial p 2 State (stateSecret (sink_fields c));
                 match err with
                 | Some e =>
                     let err := Wrapf "Failed connecting migration state sink socket" e in
                     sendControl err;;
                     mret (Some err)
                 | None => sink_transfer p instOp
                 end
               else sink_transfer p instOp
           end)
    end.

(** ** Reading traces *)

Definition isDriverCall (e : event) : bool :=
  match e with
  | MigrateSend _ | MigrateReceive _ => true
  | _ => false
  end.

Definition driverEvents (t : list event) : list event :=
  filter (fun e => isDriverCall e = true) t.

Definition driverCalls (t : list event) : nat := length (driverEvents t).

Definition dialsOf (t : list event) : list string :=
  omap (fun e => match e with Dial s => Some s | _ => None end) t.


Definition ranDisconnect (t : list event) : bool :=
  existsb (fun e => match e with RunDisconnect => true | _ => false end) t.

Definition cancelledBarrier (t : list event) : bool :=
  existsb (fun e => match e with BarrierCancel => true | _ => false end) t.

(** Every bound connection of the session has seen [Close()]. *)
Definition allClosed (f : migrationFields) : bool :=
  forallb (fun r => match connOf f r with
                    | Some c => isClosed c
                    | None => true
                    end) [Control; Filesystem; State].

(** ** Outcomes of [Do()] *)

Definition sameConfig (f f' : migrationFields) : Prop :=
  controlSecret f' = controlSecret f /\ fsSecret f' = fsSecret f /\
  stateSecret f' = stateSecret f /\ live f' = live f /\
  instanceOnly f' = instanceOnly f /\ instance f' = instance f /\
  allowInconsistent f' = allowInconsistent f.

(** The session's fields once the driver has run and teardown is over. *)
Definition afterTransfer (p : Peer) (f : migrationFields) : migrationFields :=
  disconnectFields (Nat.iter (drv_disconnects (driver p)) disconnectFunc f).

Definition driverErrLog (p : Peer) (msg : string) : list event :=
  match drv_result (driver p) with
  | Some e => [LogError msg e]
  | None => []
  end.

Definition sourceArgs (s : migrationSourceWs) (f : migrationFields)
    : MigrateSendArgs :=
  {| send_MigrateArgs := migrateArgs f (src_clusterMoveSourceName s);
     AllowInconsistent := allowInconsistent f |}.

Definition sinkArgs (c : migrationSink) (f : migrationFields) (instOp : opHandle)
    : MigrateReceiveArgs :=
  {| recv_MigrateArgs := migrateArgs f (sink_clusterMoveSourceName c);
     InstanceOperation := instOp;
     Refresh := sink_refresh c |}.

(** Outcome of a pull-mode [Do()] whose dials all succeeded, given the
    fields [f] and the trace [pre] at that point. *)
Definition pullTransferred (p : Peer) (op : opHandle) (c : migrationSink)
    (f : migrationFields) (pre : list event)
    : option error * (migrationSink * list event) :=
  (Wrapf "Failed migration on target" <$> drv_result (driver p),
   (sink_with_fields (afterTransfer p f) c,
    pre ++ [LogInfo "Migration channels connected on target";
            MigrateReceive (sinkArgs c f op)]
    ++ driverErrLog p "Failed migration on target"
    ++ [LogInfo "Migration channels disconnected on target";
        RunDisconnect])).

(** Outcome of a pull-mode [Do()] whose dial [secret] failed with [e]
    after the control channel was opened. *)
Definition pullDialFailed (c : migrationSink) (f : migrationFields)
    (pre : list event) (msg : string) (e : error)
    : option error * (migrationSink * list event) :=
  (Some (Wrapf msg e),
   (sink_with_fields (disconnectFields f) c,
    pre ++ [SendControl (Wrapf msg e); RunDisconnect])).

(** The sink a pull-mode construction returns from table entries [cs] and
    [fs]. *)
Definition pullFields (args : migrationSinkArgs) (cs fs : string)
    : migrationFields :=
  set_live (bool_decide (is_Some (arg_Secrets args !! SecretNameState))
            || arg_Live args)
    (set_stateSecret (default "" (arg_Secrets args !! SecretNameState))
       (set_fsSecret fs
          (set_controlSecret cs
             (set_instanceOnly (arg_InstanceOnly args)
                (zeroFields (arg_Instance args)))))).

Definition sinkOf (args : migrationSinkArgs) (f : migrationFields)
    : migrationSink :=
  {| sink_fields := f;
     sink_url := arg_URL args;
     sink_dialer := arg_Dialer args;
     sink_allConnected := if arg_Push args then Some cancel_New else None;
     sink_clusterMoveSourceName := arg_ClusterMoveSourceName args;
     sink_push := arg_Push args;
     sink_refresh := arg_Refresh args |}.

(** Components of a run. *)
Definition result_of {St A} (o : A * (St * list event)) : A := o.1.
Definition session_of {St A} (o : A * (St * list event)) : St := o.2.1.
Definition trace_of {St A} (o : A * (St * list event)) : list event := o.2.2.

(** The arguments a driver receives agree with the session: accessors
    hand out a stream over the very connection that is bound and nothing
    when none is, and the flags are the session's. *)
Definition argsMatch (a : MigrateArgs) (f : migrationFields) (name : string)
    : Prop :=
  (forall g, StateConn a g = (fun c => {| Conn := c |}) <$> stateConn g) /\
  (forall g, FilesystemConn a g = (fun c => {| Conn := c |}) <$> fsConn g) /\
  Snapshots a = negb (instanceOnly f) /\
  Live a = live f /\
  ClusterMoveSourceName a = name.

(** [Some] of the stream an accessor makes of a connection. *)
Definition streamOver (c : option WsConn) : option WebsocketIO :=
  (fun c => {| Conn := c |}) <$> c.

(** Connection [x] got into role [r] of the session during this [Do()]:
    it was bound there on entry, or the peer bound it before the
    deadline. *)
Definition boundBy (p : Peer) (f0 : migrationFields) (r : role) (x : WsConn)
    : Prop :=
  connOf f0 r = Some x \/
  exists e, e ∈ binds p /\ bind_role e = r /\ bind_conn e = x /\
            (bind_at e < connectTimeout)%N.

(** ** Sample hosts, sessions and peers *)

Module Sample.

Definition container : Instance :=
  {| inst_project := "default"; inst_name := "c1";
     inst_type := Container; inst_running := true |}.

Definition vm : Instance :=
  {| inst_project := "default"; inst_name := "v1";
     inst_type := VM; inst_running := true |}.

Definition secrets (n : nat) : string :=
  match n with 0 => "c1" | 1 => "f1" | _ => "s1" end.

Definition host : Host :=
  {| RandomCryptoString := fun n => Ok (secrets n);
     LookPath := fun _ => Ok "/usr/sbin/criu" |}.

Definition hostNoCriu : Host :=
  {| RandomCryptoString := fun n => Ok (secrets n);
     LookPath := fun _ => Err (Errorf "executable file not found in $PATH") |}.

Definition conn (n : nat) : WsConn := {| conn_id := n; conn_closes := 0 |}.

Definition fields (inst : Instance) (isLive : bool) : migrationFields :=
  set_stateSecret (if isLive then "s1" else "")
    (set_live isLive
       (set_fsSecret "f1" (set_controlSecret "c1" (zeroFields inst)))).

Definition source (inst : Instance) (isLive : bool) : migrationSourceWs :=
  {| src_fields := fields inst isLive;
     src_allConnected := cancel_New;
     src_clusterMoveSourceName := "" |}.

Definition sink (inst : Instance) (isLive push : bool) : migrationSink :=
  {| sink_fields := fields inst isLive;
     sink_url := "https://192.0.2.1:8443/1.0/operations/op";
     sink_dialer := WsDialer 0;
     sink_allConnected := if push then Some cancel_New else None;
     sink_clusterMoveSourceName := "";
     sink_push := push;
     sink_refresh := false |}.

Definition quietDriver : driverRun :=
  {| drv_disconnects := 0; drv_result := None |}.

Definition refused : error := Errorf "connection refused".

(** Only the filesystem channel binds, 5 ns into the wait. *)
Definition peerFsOnly : Peer :=
  {| binds := [ {| bind_at := 5; bind_role := Filesystem; bind_conn := conn 7 |} ];
     connectWithSecret := fun _ _ => Err refused;
     driver := quietDriver |}.

(** Control, filesystem and state bind in time; every dial succeeds. *)
Definition peerAll : Peer :=
  {| binds := [ {| bind_at := 1; bind_role := Filesystem; bind_conn := conn 2 |};
                {| bind_at := 2; bind_role := State; bind_conn := conn 3 |};
                {| bind_at := 3; bind_role := Control; bind_conn := conn 1 |} ];
     connectWithSecret := fun n _ => Ok (conn (S n));
     driver := quietDriver |}.

(** The n-th dial is refused, the earlier ones succeed. *)
Definition peerRefusing (k : nat) : Peer :=
  {| binds := [];
     connectWithSecret := fun n _ =>
       if bool_decide (n = k) then Err refused else Ok (conn (S n));
     driver := quietDriver |}.

Definition op : opHandle := OpHandle 1.

Definition sinkArgsOf (inst : Instance) (push isLive : bool)
    (tbl : gmap string string) : migrationSinkArgs :=
  {| arg_URL := "https://192.0.2.1:8443/1.0/operations/op";
     arg_Dialer := WsDialer 0;
     arg_Instance := inst;
     arg_InstanceOnly := false;
     arg_ClusterMoveSourceName := "";
     arg_Secrets := tbl;
     arg_Push := push;
     arg_Live := isLive;
     arg_Refresh := false |}.

Definition table2 : gmap string string :=
  <[SecretNameControl := "c1"]> (<[SecretNameFilesystem := "f1"]> ∅).

(** criu is missing and the third draw of randomness fails. *)
Definition hostDry : Host :=
  {| RandomCryptoString := fun n =>
       if bool_decide (n = 2) then Err (Errorf "unexpected EOF")
       else Ok (secrets n);
     LookPath := fun _ => Err (Errorf "executable file not found in $PATH") |}.

(** All three channels bound, none closed. *)
Definition boundFields : migrationFields :=
  set_stateConn (Some (conn 3))
    (set_fsConn (Some (conn 2))
       (set_controlConn (Some (conn 1)) (fields container true))).

End Sample.

(** * Network utilities (lxd/network/network_utils.go) *)

Module network.

(** ** Errors *)

Inductive numErrKind : Type := ErrSyntax | ErrRange.

(** Go [error] values of this package.  [Errorf format args] is
    [fmt.Errorf(format, args...)] with the arguments kept apart,
    [NumError] is [*strconv.NumError], [Wrapf] is [errors.Wrapf] and
    [Other] an error handed in by the environment. *)
Inductive error : Type :=
| Errorf (format : string) (args : list string)
| NumError (fn num : string) (kind : numErrKind)
| Wrapf (cause : error) (format : string) (args : list string)
| Other (msg : string).

(** ** Pieces of the Go standard library *)

(** [strings.Split(s, sep)] for a one-byte separator: all pieces between
    separators, the empty string included; never an empty list. *)
Fixpoint Split (s : string) (sep : ascii) : list string :=
  match s with
  | EmptyString => [EmptyString]
  | String c s' =>
      if decide (c = sep) then EmptyString :: Split s' sep
      else match Split s' sep with
           | x :: xs => String c x :: xs
           | [] => [String c EmptyString]
           end
  end.

(** [strings.Contains(s, sep)] for a one-byte separator. *)
Fixpoint Contains (s : string) (sep : ascii) : bool :=
  match s with
  | EmptyString => false
  | String c s' => bool_decide (c = sep) || Contains s' sep
  end.

Definition isDigit (c : ascii) : bool :=
  (48 <=? N_of_ascii c)%N && (N_of_ascii c <=? 57)%N.

Definition maxUint64 : N := 2 ^ 64 - 1.

(** The digit loop of [strconv.ParseUint(s, 10, 64)]: a byte that is not a
    digit is a syntax error, a value beyond 64 bits a range error,
    whichever comes first from the left. *)
Fixpoint parseUintLoop (s : string) (n : N) : N + numErrKind :=
  match s with
  | EmptyString => inl n
  | String c s' =>
      if negb (isDigit c) then inr ErrSyntax
      else
        let d := (N_of_ascii c - 48)%N in
        if (maxUint64 / 10 + 1 <=? n)%N then inr ErrRange
        else
          let n1 := (n * 10 + d)%N in
          if (maxUint64 <? n1)%N then inr ErrRange
          else parseUintLoop s' n1
  end.

(** [strconv.ParseUint(s, 10, 64)]; on a range error Go hands back the
    largest value. *)
Definition ParseUint (s : string) : N * option numErrKind :=
  match s with
  | EmptyString => (0%N, Some ErrSyntax)
  | _ =>
      match parseUintLoop s 0 with
      | inl n => (n, None)
      | inr ErrSyntax => (0%N, Some ErrSyntax)
      | inr ErrRange => (maxUint64, Some ErrRange)
      end
  end.

(** [strconv.ParseInt(s, 10, 64)] *)
Definition ParseInt (s0 : string) : Z * option error :=
  match s0 with
  | EmptyString => (0%Z, Some (NumError "ParseInt" s0 ErrSyntax))
  | String c rest =>
      let '(neg, s) :=
        if decide (c = "+"%char) then (false, rest)
        else if decide (c = "-"%char) then (true, rest)
        else (false, s0) in
      match ParseUint s with
      | (_, Some ErrSyntax) => (0%Z, Some (NumError "ParseInt" s0 ErrSyntax))
      | (un, _) =>
          let cutoff := (2 ^ 63)%N in
          if negb neg && (cutoff <=? un)%N then
            ((Z.of_N cutoff - 1)%Z, Some (NumError "ParseInt" s0 ErrRange))
          else if neg && (cutoff <? un)%N then
            ((- Z.of_N cutoff)%Z, Some (NumError "ParseInt" s0 ErrRange))
          else
            (if neg then (- Z.of_N un)%Z else Z.of_N un, None)
      end
  end.

(** [int64] arithmetic wraps around. *)
Definition wrap64 (z : Z) : Z := ((z + 2 ^ 63) mod 2 ^ 64 - 2 ^ 63)%Z.

Definition hexDigit (n : N) : ascii :=
  match n with
  | 0 => "0" | 1 => "1" | 2 => "2" | 3 => "3" | 4 => "4" | 5 => "5"
  | 6 => "6" | 7 => "7" | 8 => "8" | 9 => "9" | 10 => "a" | 11 => "b"
  | 12 => "c" | 13 => "d" | 14 => "e" | _ => "f"
  end%char%N.

(** [hex.EncodeToString]: two lower-case digits per byte. *)
Fixpoint EncodeToString (bs : list Byte.byte) : string :=
  match bs with
  | [] => EmptyString
  | b :: bs' =>
      String (hexDigit (Byte.to_N b / 16))
        (String (hexDigit (Byte.to_N b mod 16)) (EncodeToString bs'))
  end.

Fixpoint hexGo (fuel : nat) (n : N) (acc : string) : string :=
  match fuel with
  | O => acc
  | S k =>
      if (n =? 0)%N then acc
      else hexGo k (n / 16)%N (String (hexDigit (n mod 16)) acc)
  end.

(** [fmt.Sprintf("%x", n)] for a non-negative integer. *)
Definition fmtHex (n : N) : string :=
  if (n =? 0)%N then "0" else hexGo (N.size_nat n) n EmptyString.

(** [fmt.Sprintf("%d", n)] for a non-negative integer. *)
Definition fmtDec (n : N) : string := pretty n.

(** ** Port numbers *)

(** [networkValidPort] *)
Definition networkValidPort (value : string) : option error :=
  if decide (value = EmptyString) then None
  else
    match ParseInt value with
    | (_, Some _) => Some (Errorf "Invalid value for an integer: %s" [value])
    | (valueInt, None) =>
        if bool_decide (valueInt < 1)%Z || bool_decide (valueInt > 65536)%Z
        then Some (Errorf "Invalid port number: %s" [value])
        else None
    end.

(** [ParsePortRange]: the Go triple [(base, size, err)]. *)
Definition ParsePortRange (r : string) : Z * Z * option error :=
  let entries := Split r "-" in
  if bool_decide (2 < length entries) then
    (-1, -1, Some (Errorf "Invalid port range %q" [r]))%Z
  else
    match ParseInt (nth 0 entries EmptyString) with
    | (_, Some err) => (-1, -1, Some err)%Z
    | (base, None) =>
        if bool_decide (1 < length entries) then
          match ParseInt (nth 1 entries EmptyString) with
          | (_, Some err) => (-1, -1, Some err)%Z
          | (size, None) =>
              if bool_decide (size <= base)%Z then
                (-1, -1,
                 Some (Errorf "End port should be higher than start port" []))%Z
              else
                let size := wrap64 (size - base) in
                let size := wrap64 (size + 1) in
                (base, size, None)
          end
        else (base, 1%Z, None)
    end.

(** ** Random names *)

(** [RandomDevName] with the four bytes [rand.Read] delivered. *)
Definition RandomDevName (randBytes : Byte.byte * Byte.byte * Byte.byte * Byte.byte)
    (prefix : string) : string :=
  let '(b0, b1, b2, b3) := randBytes in
  let iface := prefix +:+ EncodeToString [b0; b1; b2; b3] in
  if bool_decide (13 < String.length iface) then EmptyString else iface.

(** The loop of [randomHwaddr] over the rest of the template; [k] counts
    the calls of [r.Int31n(16)] made so far. *)
Fixpoint hwaddrLoop (int31n : nat -> N) (template : string) (k : nat) : string :=
  match template with
  | EmptyString => EmptyString
  | String c rest =>
      if decide (c = "x"%char)
      then fmtHex (int31n k) +:+ hwaddrLoop int31n rest (S k)
      else String c (hwaddrLoop int31n rest k)
  end.

(** [randomHwaddr]; [int31n k] is the result of the k-th [r.Int31n(16)]. *)
Definition randomHwaddr (int31n : nat -> N) : string :=
  hwaddrLoop int31n "00:16:3e:xx:xx:xx" 0.

(** ** Host devices and their use by NICs *)

(** [m[k]] on a [map[string]string]: the empty string for a missing key. *)
Definition get (m : gmap string string) (k : string) : string :=
  default EmptyString (m !! k).

(** The scan of [/proc/net/vlan/config] in [GetHostDevice]. *)
Fixpoint vlanScan (TrimSpace : string -> string) (lines : list string)
    (parent vlan defaultVlan : string) : string :=
  match lines with
  | [] => defaultVlan
  | line :: rest =>
      match Split line "|" with
      | [s0; s1; s2] =>
          let vlanIface := TrimSpace s0 in
          let vlanID := TrimSpace s1 in
          let vlanParent := TrimSpace s2 in
          if bool_decide (vlanParent = parent) && bool_decide (vlanID = vlan)
          then vlanIface
          else vlanScan TrimSpace rest parent vlan defaultVlan
      | _ => vlanScan TrimSpace rest parent vlan defaultVlan
      end
  end.

(** [GetHostDevice].  [vlanConfig] is the content of
    [/proc/net/vlan/config] line by line, [None] when the file does not
    exist or cannot be opened; [TrimSpace] is [strings.TrimSpace]. *)
Definition GetHostDevice (TrimSpace : string -> string)
    (vlanConfig : option (list string)) (parent vlan : string) : string :=
  if decide (vlan = EmptyString) then parent
  else
    let defaultVlan := parent +:+ "." +:+ vlan in
    match vlanConfig with
    | None => defaultVlan
    | Some lines => vlanScan TrimSpace lines parent vlan defaultVlan
    end.

(** [isInUseByDevice] *)
Definition isInUseByDevice (TrimSpace : string -> string)
    (vlanConfig : option (list string)) (networkName : string)
    (d : gmap string string) : bool :=
  if negb (bool_decide (get d "type" = "nic")) then false
  else if negb (bool_decide (get d "network" = EmptyString))
          && bool_decide (get d "network" = networkName) then true
  else if negb (bool_decide (get d "parent" = EmptyString))
          && bool_decide (GetHostDevice TrimSpace vlanConfig
                            (get d "parent") (get d "vlan") = networkName)
       then true
  else false.

(** [NICUsesNetwork] over the names of the networks. *)
Fixpoint NICUsesNetwork (nicDev : gmap string string) (networks : list string)
    : bool :=
  match networks with
  | [] => false
  | name :: rest =>
      if bool_decide (name = get nicDev "network")
         || bool_decide (name = get nicDev "parent")
      then true
      else NICUsesNetwork nicDev rest
  end.

(** ** Waiting for an interface *)

(** [InterfaceExists]; [pathExists] is [shared.PathExists]. *)
Definition InterfaceExists (pathExists : string -> bool) (nic : string) : bool :=
  if negb (bool_decide (nic = EmptyString))
     && pathExists ("/sys/class/net/" +:+ nic)
  then true else false.

(** The loop of [InterfaceBindWait] from iteration [i] with [n] iterations
    left; [pathExistsAt i] is the file system at the i-th poll.  Returns
    the number of 50 ms sleeps with the error. *)
Fixpoint bindWaitLoop (pathExistsAt : nat -> string -> bool) (ifName : string)
    (n i : nat) : nat * option error :=
  match n with
  | O => (0, Some (Errorf "Bind of interface %q took too long" [ifName]))
  | S n' =>
      if InterfaceExists (pathExistsAt i) ifName then (0, None)
      else
        let '(sleeps, err) := bindWaitLoop pathExistsAt ifName n' (S i) in
        (S sleeps, err)
  end.

(** [InterfaceBindWait] *)
Definition InterfaceBindWait (pathExistsAt : nat -> string -> bool)
    (ifName : string) : nat * option error :=
  bindWaitLoop pathExistsAt ifName 10 0.

(** ** Go's package [net] *)

(** [net.IPNet]: address and mask as byte slices ([nil] is the empty
    list). *)
Record IPNet : Type := {
  IP : list Byte.byte;
  Mask : list Byte.byte
}.

Definition isZeros (p : list Byte.byte) : bool :=
  forallb (fun b => (Byte.to_N b =? 0)%N) p.

Definition byteAt (p : list Byte.byte) (i : nat) : N :=
  Byte.to_N (nth i p Byte.x00).

(** [ip.To4()]; [None] is Go's nil. *)
Definition IP_To4 (ip : list Byte.byte) : option (list Byte.byte) :=
  if (length ip =? 4)%nat then Some ip
  else if (length ip =? 16)%nat && isZeros (take 10 ip)
          && (byteAt ip 10 =? 255)%N && (byteAt ip 11 =? 255)%N
  then Some (drop 12 ip)
  else None.

(** [networkNumberAndMask]; the pair of nils is the pair of empty lists. *)
Definition networkNumberAndMask (n : IPNet) : list Byte.byte * list Byte.byte :=
  let ipOk :=
    match IP_To4 (IP n) with
    | Some ip => Some ip
    | None => if negb ((length (IP n) =? 16)%nat) then None else Some (IP n)
    end in
  match ipOk with
  | None => ([], [])
  | Some ip =>
      if (length (Mask n) =? 4)%nat then
        if negb (length ip =? 4)%nat then ([], []) else (ip, Mask n)
      else if (length (Mask n) =? 16)%nat then
        if (length ip =? 4)%nat then (ip, drop 12 (Mask n)) else (ip, Mask n)
      else ([], [])
  end.

(** The loop of [IPNet.Contains] over three slices of one length. *)
Fixpoint containsLoop (nn ip m : list Byte.byte) : bool :=
  match nn, ip, m with
  | a :: nn', b :: ip', k :: m' =>
      if negb (N.land (Byte.to_N a) (Byte.to_N k)
               =? N.land (Byte.to_N b) (Byte.to_N k))%N
      then false
      else containsLoop nn' ip' m'
  | _, _, _ => true
  end.

(** [n.Contains(ip)] *)
Definition IPNet_Contains (n : IPNet) (ip : list Byte.byte) : bool :=
  let '(nn, m) := networkNumberAndMask n in
  let ip := match IP_To4 ip with Some x => x | None => ip end in
  if negb (length ip =? length nn)%nat then false
  else containsLoop nn ip m.

(** [for v&0x80 != 0 { n++; v <<= 1 }] on a byte; eight rounds shift
    every bit out. *)
Fixpoint leadingOnes (rounds : nat) (v : N) : Z * N :=
  match rounds with
  | O => (0%Z, v)
  | S k =>
      if negb (N.land v 128 =? 0)%N
      then let '(n, v') := leadingOnes k ((v * 2) mod 256)%N in
           ((n + 1)%Z, v')
      else (0%Z, v)
  end.

(** The loop of [simpleMaskLength] with [n] ones counted so far; -1 for a
    mask that is not a run of ones followed by zeros. *)
Fixpoint simpleMaskLoop (mask : list Byte.byte) (n : Z) : Z :=
  match mask with
  | [] => n
  | v :: rest =>
      if (Byte.to_N v =? 255)%N then simpleMaskLoop rest (n + 8)
      else
        let '(k, v') := leadingOnes 8 (Byte.to_N v) in
        if negb (v' =? 0)%N then (-1)%Z
        else if negb (isZeros rest) then (-1)%Z
        else (n + k)%Z
  end.

Definition simpleMaskLength (mask : list Byte.byte) : Z :=
  simpleMaskLoop mask 0.

(** [m.Size()] *)
Definition Mask_Size (m : list Byte.byte) : Z * Z :=
  let ones := simpleMaskLength m in
  let bits := (Z.of_nat (length m) * 8)%Z in
  if (ones =? -1)%Z then (0%Z, 0%Z) else (ones, bits).

(** [SubnetContains]; [None] is a nil pointer. *)
Definition SubnetContains (outerSubnet innerSubnet : option IPNet) : bool :=
  match outerSubnet, innerSubnet with
  | Some outer, Some inner =>
      if negb (IPNet_Contains outer (IP inner)) then false
      else
        let '(outerOnes, outerBits) := Mask_Size (Mask outer) in
        let '(innerOnes, innerBits) := Mask_Size (Mask inner) in
        if negb (innerBits =? outerBits)%Z then false
        else if (innerOnes <? outerOnes)%Z then false
        else true
  | _, _ => false
  end.

(** ** Subnets *)

Section Subnets.

(** [net.ParseCIDR], the network part of its result. *)
Variable ParseCIDR : string -> IPNet + error.

(** [SubnetParseAppend] *)
Fixpoint SubnetParseAppend (subnets : list IPNet) (parseSubnet : list string)
    : option (list IPNet) * option error :=
  match parseSubnet with
  | [] => (Some subnets, None)
  | subnetStr :: rest =>
      match ParseCIDR subnetStr with
      | inr err => (None, Some (Wrapf err "Invalid subnet %q" [subnetStr]))
      | inl subnet => SubnetParseAppend (subnets ++ [subnet]) rest
      end
  end.

(** What one attempt of [randomSubnetV4] sees: the two [rand.Intn(255)]
    results and the answers of [inRoutingTable] and [pingSubnet]. *)
Variable Intn : nat -> N.
Variable inRoutingTable : nat -> IPNet -> bool.
Variable pingSubnet : nat -> IPNet -> bool.

Definition cidrV4 (i : nat) : string :=
  "10." +:+ fmtDec (Intn (2 * i)) +:+ "." +:+ fmtDec (Intn (2 * i + 1))
  +:+ ".1/24".

(** The loop of [randomSubnetV4] from attempt [i] with [n] attempts left. *)
Fixpoint subnetV4Loop (n i : nat) : string * option error :=
  match n with
  | O =>
      (EmptyString,
       Some (Errorf "Failed to automatically find an unused IPv4 subnet, manual configuration required" []))
  | S n' =>
      let cidr := cidrV4 i in
      match ParseCIDR cidr with
      | inr _ => subnetV4Loop n' (S i)
      | inl subnet =>
          if inRoutingTable i subnet then subnetV4Loop n' (S i)
          else if pingSubnet i subnet then subnetV4Loop n' (S i)
          else (cidr, None)
      end
  end.

(** [randomSubnetV4] *)
Definition randomSubnetV4 : string * option error := subnetV4Loop 100 0.

End Subnets.

(** ** Hardware addresses *)




(** ** Iterating over a subnet *)

(** [ip.To16()] *)
Definition IP_To16 (ip : list Byte.byte) : option (list Byte.byte) :=
  if (length ip =? 4)%nat then
    Some ([Byte.x00; Byte.x00; Byte.x00; Byte.x00; Byte.x00; Byte.x00;
           Byte.x00; Byte.x00; Byte.x00; Byte.x00; Byte.xff; Byte.xff] ++ ip)
  else if (length ip =? 16)%nat then Some ip
  else None.

(** [big.Int.SetBytes]: the slice read as a big-endian number. *)
Definition SetBytes (buf : list Byte.byte) : N :=
  fold_left (fun acc b => (acc * 256 + Byte.to_N b)%N) buf 0%N.

Definition byteOf (n : N) : Byte.byte :=
  default Byte.x00 (Byte.of_N (n mod 256)).

Fixpoint bytesGo (fuel : nat) (n : N) (acc : list Byte.byte) : list Byte.byte :=
  match fuel with
  | O => acc
  | S k =>
      if (n =? 0)%N then acc
      else bytesGo k (n / 256)%N (byteOf n :: acc)
  end.

(** [big.Int.Bytes]: big-endian without leading zero bytes, empty for 0. *)
Definition Bytes (n : N) : list Byte.byte := bytesGo (N.size_nat n) n [].

(** The loop of [SubnetIterate] for at most [fuel] rounds: the addresses
    handed to [ipFunc], and the returned error, or [None] when the rounds
    are used up before the loop ends. *)
Fixpoint iterateLoop (fuel : nat) (subnet : IPNet)
    (ipFunc : list Byte.byte -> option error) (startBig : N)
    : list (list Byte.byte) * option (option error) :=
  match fuel with
  | O => ([], None)
  | S k =>
      let ip := Bytes startBig in
      if negb (IPNet_Contains subnet ip) then ([], Some None)
      else
        match ipFunc ip with
        | Some err => ([ip], Some (Some err))
        | None =>
            let '(visited, r) := iterateLoop k subnet ipFunc (startBig + 1)%N in
            (ip :: visited, r)
        end
  end.

(** [SubnetIterate] *)
Definition SubnetIterate (fuel : nat) (subnet : IPNet)
    (ipFunc : list Byte.byte -> option error)
    : list (list Byte.byte) * option (option error) :=
  let startIP :=
    match IP_To4 (IP subnet) with
    | Some ip => ip
    | None => default [] (IP_To16 (IP subnet))
    end in
  iterateLoop fuel subnet ipFunc (SetBytes startIP).

End network.

(** ** Notions the further properties are stated with *)

(** What the digit loop makes of a string standing for [v] in [k] digits. *)
Definition readsAs (s : string) (k v : N) : Prop :=
  forall acc,
    match network.parseUintLoop s acc with
    | inl r => r = (acc * 10 ^ k + v)%N
    | inr network.ErrRange => (network.maxUint64 < acc * 10 ^ k + v)%N
    | inr network.ErrSyntax => False
    end.

(** The place of a byte in a string, counted from zero. *)
Fixpoint indexOf (c : ascii) (s : string) : option N :=
  match s with
  | EmptyString => None
  | String d rest =>
      if decide (c = d) then Some 0%N else N.succ <$> indexOf c rest
  end.

(** The value of a lower-case hex digit. *)
Definition hexValue (c : ascii) : option N := indexOf c "0123456789abcdef".

(** Reading lower-case hex back into bytes, two digits per byte. *)
Fixpoint decodeHex (s : string) : option (list Byte.byte) :=
  match s with
  | EmptyString => Some []
  | String hi (String lo rest) =>
      h ← hexValue hi;
      l ← hexValue lo;
      b ← Byte.of_N (h * 16 + l);
      bs ← decodeHex rest;
      Some (b :: bs)
  | String _ EmptyString => None
  end.

(** A line of the VLAN table that names [iface] as the device of [vlan]
    on [parent]. *)
Definition vlanLineFor (TrimSpace : string -> string)
    (parent vlan iface line : string) : Prop :=
  exists s0 s1 s2,
    network.Split line "|" = [s0; s1; s2] /\
    TrimSpace s1 = vlan /\ TrimSpace s2 = parent /\ TrimSpace s0 = iface.

Definition vlanLineMatches (TrimSpace : string -> string)
    (parent vlan line : string) : Prop :=
  exists iface, vlanLineFor TrimSpace parent vlan iface line.


(** Attempt [k] of [randomSubnetV4] does not yield a subnet. *)
Definition attemptRejected
    (ParseCIDR : string -> network.IPNet + network.error) (Intn : nat -> N)
    (inRoutingTable pingSubnet : nat -> network.IPNet -> bool) (k : nat) : Prop :=
  match ParseCIDR (network.cidrV4 Intn k) with
  | inr _ => True
  | inl subnet => inRoutingTable k subnet = true \/ pingSubnet k subnet = true
  end.

Definition loggedErrors (t : list event) : list (string * error) :=
  omap (fun e => match e with LogError m x => Some (m, x) | _ => None end) t.

(** The byte of a mask made of [t] ones followed by zeros, for the byte
    where [t] ones are still to come. *)
Definition prefixByte (t : Z) : N :=
  if decide (t <= 0)%Z then 0%N
  else if decide (8 <= t)%Z then 255%N
  else (256 - 2 ^ Z.to_N (8 - t))%N.

Definition leadingOnesOk (v : Byte.byte) : bool :=
  let '(k, v') := network.leadingOnes 8 (Byte.to_N v) in
  implb (v' =? 0)%N
    ((0 <=? k)%Z && (k <=? 8)%Z && (Byte.to_N v =? prefixByte k)%N).

Definition norm4 (ip : list Byte.byte) : list Byte.byte :=
  match network.IP_To4 ip with Some x => x | None => ip end.

Definition maskLe (mO mI : list Byte.byte) : Prop :=
  Forall2 (fun a b => N.land (Byte.to_N a) (Byte.to_N b) = Byte.to_N a) mO mI.




(** ** Sample devices and subnets *)

Module NetSample.

Definition bridgedNic : gmap string string :=
  <["type" := "nic"]> (<["parent" := "lxdbr0"]> ∅).

(** 10.0.0.0/8 *)
Definition net10 : network.IPNet :=
  {| network.IP := [Byte.x0a; Byte.x00; Byte.x00; Byte.x00];
     network.Mask := [Byte.xff; Byte.x00; Byte.x00; Byte.x00] |}.

(** 10.1.0.0/16 *)
Definition net10_1 : network.IPNet :=
  {| network.IP := [Byte.x0a; Byte.x01; Byte.x00; Byte.x00];
     network.Mask := [Byte.xff; Byte.xff; Byte.x00; Byte.x00] |}.

(** 10.1.2.0/24 *)
Definition net10_1_2 : network.IPNet :=
  {| network.IP := [Byte.x0a; Byte.x01; Byte.x02; Byte.x00];
     network.Mask := [Byte.xff; Byte.xff; Byte.xff; Byte.x00] |}.

(** 10.1.2.3 *)
Definition host10_1_2_3 : list Byte.byte :=
  [Byte.x0a; Byte.x01; Byte.x02; Byte.x03].

(** 64:ff9b::/96 *)
Definition nat64 : network.IPNet :=
  {| network.IP := [Byte.x00; Byte.x64; Byte.xff; Byte.x9b;
                    Byte.x00; Byte.x00; Byte.x00; Byte.x00;
                    Byte.x00; Byte.x00; Byte.x00; Byte.x00;
                    Byte.x00; Byte.x00; Byte.x00; Byte.x00];
     network.Mask := [Byte.xff; Byte.xff; Byte.xff; Byte.xff;
                      Byte.xff; Byte.xff; Byte.xff; Byte.xff;
                      Byte.xff; Byte.xff; Byte.xff; Byte.xff;
                      Byte.x00; Byte.x00; Byte.x00; Byte.x00] |}.

End NetSample.

(** * Properties *)

(** ** The barrier leaves the session's configuration alone *)

Lemma sameConfig_setConn r c f : sameConfig f (setConn r c f).
Proof. destruct r; repeat split. Qed.

Lemma awaitBinds_sameConfig t evs :
  forall f, sameConfig f (awaitBinds t evs f).1.
Proof.
  induction evs as [|e evs IH]; intros f; simpl.
  - destruct (allBound f); repeat split.
  - destruct (allBound f); [repeat split|].
    destruct (bind_at e <? t)%N; [|repeat split].
    specialize (IH (setConn (bind_role e) (Some (bind_conn e)) f)).
    destruct (sameConfig_setConn (bind_role e) (Some (bind_conn e)) f)
      as (?&?&?&?&?&?&?).
    destruct IH as (?&?&?&?&?&?&?).
    repeat split; congruence.
Qed.

(** The barrier is done exactly when every required role is bound. *)
Lemma awaitBinds_done t evs :
  forall f, (awaitBinds t evs f).2 = AllConnectedDone
            <-> allBound (awaitBinds t evs f).1 = true.
Proof.
  induction evs as [|e evs IH]; intros f; simpl.
  - destruct (allBound f) eqn:E; simpl; rewrite ?E; split; congruence.
  - destruct (allBound f) eqn:E; simpl; [rewrite E; split; congruence|].
    destruct (bind_at e <? t)%N; [apply IH|].
    simpl. rewrite E. split; congruence.
Qed.

Lemma awaitBinds_timer t evs f :
  allBound (awaitBinds t evs f).1 = false ->
  (awaitBinds t evs f).2 = TimerFired.
Proof.
  intros H. destruct (awaitBinds t evs f).2 eqn:E; [done|].
  apply awaitBinds_done in E. congruence.
Qed.

Lemma connOf_setConn r' c f r :
  connOf (setConn r' c f) r = if decide (r = r') then c else connOf f r.
Proof. destruct r, r'; reflexivity. Qed.

(** Every connection the session holds behind the barrier was there on
    entry or came with one of the peer's binds before the deadline. *)
Lemma awaitBinds_connOf t evs r x :
  forall f,
    connOf (awaitBinds t evs f).1 r = Some x ->
    connOf f r = Some x \/
    exists e, e ∈ evs /\ bind_role e = r /\ bind_conn e = x /\
              (bind_at e < t)%N.
Proof.
  induction evs as [|e evs IH]; intros f; simpl.
  - destruct (allBound f); simpl; auto.
  - destruct (allBound f); simpl; [auto|].
    destruct (bind_at e <? t)%N eqn:Hat; simpl; [|auto].
    intros H. apply IH in H as [H|(e' & Hin & Hr & Hx & Ht)].
    + rewrite connOf_setConn in H. destruct (decide (r = bind_role e)).
      * right. exists e. apply N.ltb_lt in Hat.
        repeat split; [left|congruence|congruence|done].
      * by left.
    + right. exists e'. repeat split; [by right|done..].
Qed.

Lemma allBound_bound f :
  allBound f = true ->
  is_Some (controlConn f) /\ is_Some (fsConn f) /\
  (live f && isContainer (instance f) = true -> is_Some (stateConn f)).
Proof.
  unfold allBound. simpl. intros H.
  apply andb_true_iff in H as [Hc H]. apply andb_true_iff in H as [Hf H].
  apply andb_true_iff in H as [Hs _].
  apply bool_decide_eq_true in Hc. apply bool_decide_eq_true in Hf.
  split; [done|]. split; [done|]. intros Hl. rewrite Hl in Hs.
  by apply bool_decide_eq_true in Hs.
Qed.

(** ** Trace equations for [Do()] *)

Ltac run_monad :=
  cbv [mbind mret M_bind M_ret logInfo logError emit fst snd defer disconnect
       sendControl get modify modifyFields source_MigrateSend
       sink_MigrateReceive sink_transfer dial driverBody].

Lemma source_Do_run p op s :
  run (source_Do p op) s =
  let '(f, sel) := awaitBinds connectTimeout (binds p) (src_fields s) in
  let s' := src_with_allConnected (Cancel (src_allConnected s)) s in
  match sel with
  | TimerFired =>
      (Some errTimedOut,
       (src_with_fields f s',
        [LogInfo "Waiting for migration channel connections on source";
         BarrierCancel]))
  | AllConnectedDone =>
      (Wrapf "Failed migration on source" <$> drv_result (driver p),
       (src_with_fields (afterTransfer p f) s',
        [LogInfo "Waiting for migration channel connections on source";
         LogInfo "Migration channels connected on source";
         SetOperation op; MigrateSend (sourceArgs s f)]
        ++ driverErrLog p "Failed migration on source"
        ++ [RunDisconnect;
            LogInfo "Migration channels disconnected on source"]))
  end.
Proof.
  unfold run, source_Do, source_select, driverErrLog, afterTransfer.
  cbv [mbind mret M_bind M_ret logInfo emit fst snd].
  destruct (awaitBinds connectTimeout (binds p) (src_fields s)) as [f sel].
  destruct sel; [reflexivity|].
  run_monad. cbn.
  destruct (drv_result (driver p)); reflexivity.
Qed.

Lemma sink_Do_push p op c :
  sink_push c = true ->
  run (sink_Do p op) c =
  let '(f, sel) := awaitBinds connectTimeout (binds p) (sink_fields c) in
  let c' := sink_with_allConnected (Cancel <$> sink_allConnected c) c in
  match sel with
  | TimerFired =>
      (Some errTimedOut,
       (sink_with_fields f c',
        [LogInfo "Waiting for migration channel connections on target";
         BarrierCancel]))
  | AllConnectedDone =>
      (Wrapf "Failed migration on target" <$> drv_result (driver p),
       (sink_with_fields (afterTransfer p f) c',
        [LogInfo "Waiting for migration channel connections on target";
         LogInfo "Migration channels connected on target";
         MigrateReceive (sinkArgs c f op)]
        ++ driverErrLog p "Failed migration on target"
        ++ [LogInfo "Migration channels disconnected on target";
            RunDisconnect]))
  end.
Proof.
  intros Hpush.
  unfold run, sink_Do, sink_select, driverErrLog, afterTransfer.
  cbv [mbind mret M_bind M_ret logInfo emit fst snd get].
  rewrite Hpush.
  destruct (awaitBinds connectTimeout (binds p) (sink_fields c)) as [f sel].
  destruct sel; [reflexivity|].
  run_monad. cbn.
  destruct (drv_result (driver p)); reflexivity.
Qed.

Lemma sink_Do_pull p op c :
  sink_push c = false ->
  run (sink_Do p op) c =
  let f0 := sink_fields c in
  let waiting :=
    LogInfo "Waiting for migration channel connections on target" in
  match connectWithSecret p 0 (controlSecret f0) with
  | Err e =>
      (Some (Wrapf "Failed connecting migration control sink socket" e),
       (sink_with_fields (set_controlConn None f0) c,
        [waiting; Dial (controlSecret f0)]))
  | Ok c0 =>
      let f1 := set_controlConn (Some c0) f0 in
      match connectWithSecret p 1 (fsSecret f0) with
      | Err e =>
          pullDialFailed c (set_fsConn None f1)
            [waiting; Dial (controlSecret f0); Dial (fsSecret f0)]
            "Failed connecting migration filesystem sink socket" e
      | Ok c1 =>
          let f2 := set_fsConn (Some c1) f1 in
          if live f0 && isContainer (instance f0) then
            match connectWithSecret p 2 (stateSecret f0) with
            | Err e =>
                pullDialFailed c (set_stateConn None f2)
                  [waiting; Dial (controlSecret f0); Dial (fsSecret f0);
                   Dial (stateSecret f0)]
                  "Failed connecting migration state sink socket" e
            | Ok c2 =>
                pullTransferred p op c (set_stateConn (Some c2) f2)
                  [waiting; Dial (controlSecret f0); Dial (fsSecret f0);
                   Dial (stateSecret f0)]
            end
          else
            pullTransferred p op c f2
              [waiting; Dial (controlSecret f0); Dial (fsSecret f0)]
      end
  end.
Proof.
  intros Hpush.
  unfold run, sink_Do, pullTransferred, pullDialFailed, driverErrLog,
    afterTransfer.
  cbv [mbind mret M_bind M_ret logInfo emit fst snd get].
  rewrite Hpush. run_monad. cbn.
  destruct (connectWithSecret p 0 (controlSecret (sink_fields c)));
    [|reflexivity].
  cbn.
  destruct (connectWithSecret p 1 (fsSecret (sink_fields c)));
    [|reflexivity].
  cbn.
  destruct (live (sink_fields c) && isContainer (instance (sink_fields c))).
  - destruct (connectWithSecret p 2 (stateSecret (sink_fields c)));
      [|reflexivity].
    cbn. destruct (drv_result (driver p)); reflexivity.
  - cbn. destruct (drv_result (driver p)); reflexivity.
Qed.

(** ** Barrier timeout *)

(** C3: for the source and the push-mode sink, when fewer than the
    required channels are bound by the time the fixed 10-second timer
    fires, [Do()] cancels the barrier, returns the timeout error and never
    invokes the driver callback. *)
Theorem barrier_timeout_fails_Do (p : Peer) (op : opHandle) :
  connectTimeout = (10 * 1000000000)%N /\
  (forall s,
     allBound (awaitBinds connectTimeout (binds p) (src_fields s)).1 = false ->
     let o := run (source_Do p op) s in
     result_of o = Some errTimedOut /\
     cancelled (src_allConnected (session_of o)) = true /\
     cancelledBarrier (trace_of o) = true /\
     driverCalls (trace_of o) = 0) /\
  (forall c,
     sink_push c = true ->
     allBound (awaitBinds connectTimeout (binds p) (sink_fields c)).1 = false ->
     let o := run (sink_Do p op) c in
     result_of o = Some errTimedOut /\
     cancelled <$> sink_allConnected (session_of o)
       = (fun _ => true) <$> sink_allConnected c /\
     cancelledBarrier (trace_of o) = true /\
     driverCalls (trace_of o) = 0).
Proof.
  split; [reflexivity|]. split.
  - intros s H o. subst o. rewrite source_Do_run.
    pose proof (awaitBinds_timer _ _ _ H) as Hsel.
    destruct (awaitBinds connectTimeout (binds p) (src_fields s)) as [f sel].
    simpl in Hsel. subst sel. repeat split.
  - intros c Hpush H o. subst o. rewrite (sink_Do_push _ _ _ Hpush).
    pose proof (awaitBinds_timer _ _ _ H) as Hsel.
    destruct (awaitBinds connectTimeout (binds p) (sink_fields c)) as [f sel].
    simpl in Hsel. subst sel. repeat split.
    simpl. destruct (sink_allConnected c); reflexivity.
Qed.

Lemma barrier_timeout_fails_Do_witness :
  allBound (awaitBinds connectTimeout (binds Sample.peerFsOnly)
              (src_fields (Sample.source Sample.container true))).1 = false /\
  result_of (run (source_Do Sample.peerFsOnly Sample.op)
               (Sample.source Sample.container true)) = Some errTimedOut /\
  result_of (run (sink_Do Sample.peerFsOnly Sample.op)
               (Sample.sink Sample.container true true)) = Some errTimedOut.
Proof.
  split; [reflexivity|]. split.
  - apply (proj1 (proj2 (barrier_timeout_fails_Do Sample.peerFsOnly Sample.op))
             (Sample.source Sample.container true)).
    reflexivity.
  - apply (proj2 (proj2 (barrier_timeout_fails_Do Sample.peerFsOnly Sample.op))
             (Sample.sink Sample.container true true)); reflexivity.
Defined.

(** ** Hand-off to the driver *)

Lemma migrateArgs_match f f' name :
  sameConfig f f' -> argsMatch (migrateArgs f' name) f name.
Proof.
  intros (_&_&_&Hl&Hi&_&_). unfold argsMatch, migrateArgs; simpl.
  rewrite Hl, Hi. repeat split.
Qed.

Lemma driverEvents_app t1 t2 :
  driverEvents (t1 ++ t2) = driverEvents t1 ++ driverEvents t2.
Proof. apply filter_app. Qed.

Lemma driverEvents_errLog p msg : driverEvents (driverErrLog p msg) = [].
Proof. unfold driverErrLog. destruct (drv_result (driver p)); reflexivity. Qed.

Ltac driver_events :=
  cbv [trace_of result_of session_of fst snd driverCalls
       pullTransferred pullDialFailed];
  rewrite ?driverEvents_app, ?driverEvents_errLog.

(** C8: once every required channel is bound before the timeout (source,
    push-mode sink) or every pull-mode dial has succeeded, [Do()] invokes
    the driver callback exactly once, on the session as the barrier or the
    dials left it: a connection it holds behind the barrier was bound on
    entry or by the peer before the deadline, in pull mode it is the one
    the dial returned, and the accessors passed hand the driver a stream
    over exactly the connection bound for their channel and nil when none
    is.  The flags are Snapshots = not instanceOnly, Live = the session's live
    flag, the cluster-move source name and, for the source,
    allow-inconsistent. *)
Theorem Do_invokes_driver_once (p : Peer) (op : opHandle) :
  (forall s,
     allBound (awaitBinds connectTimeout (binds p) (src_fields s)).1 = true ->
     let o := run (source_Do p op) s in
     let f := (awaitBinds connectTimeout (binds p) (src_fields s)).1 in
     exists a,
       driverEvents (trace_of o) = [MigrateSend a] /\
       driverCalls (trace_of o) = 1 /\
       argsMatch (send_MigrateArgs a) (src_fields s)
         (src_clusterMoveSourceName s) /\
       AllowInconsistent a = allowInconsistent (src_fields s) /\
       src_fields (session_of o) = afterTransfer p f /\
       (forall r x, connOf f r = Some x -> boundBy p (src_fields s) r x) /\
       (exists cf, fsConn f = Some cf /\
          FilesystemConn (send_MigrateArgs a) f = Some {| Conn := cf |}) /\
       StateConn (send_MigrateArgs a) f = streamOver (stateConn f) /\
       (live (src_fields s) && isContainer (instance (src_fields s)) = true ->
        is_Some (StateConn (send_MigrateArgs a) f))) /\
  (forall c,
     sink_push c = true ->
     allBound (awaitBinds connectTimeout (binds p) (sink_fields c)).1 = true ->
     let o := run (sink_Do p op) c in
     let f := (awaitBinds connectTimeout (binds p) (sink_fields c)).1 in
     exists a,
       driverEvents (trace_of o) = [MigrateReceive a] /\
       driverCalls (trace_of o) = 1 /\
       argsMatch (recv_MigrateArgs a) (sink_fields c)
         (sink_clusterMoveSourceName c) /\
       sink_fields (session_of o) = afterTransfer p f /\
       (forall r x, connOf f r = Some x -> boundBy p (sink_fields c) r x) /\
       (exists cf, fsConn f = Some cf /\
          FilesystemConn (recv_MigrateArgs a) f = Some {| Conn := cf |}) /\
       StateConn (recv_MigrateArgs a) f = streamOver (stateConn f) /\
       (live (sink_fields c) && isContainer (instance (sink_fields c)) = true ->
        is_Some (StateConn (recv_MigrateArgs a) f))) /\
  (forall c,
     sink_push c = false ->
     isOk (connectWithSecret p 0 (controlSecret (sink_fields c))) = true ->
     isOk (connectWithSecret p 1 (fsSecret (sink_fields c))) = true ->
     (live (sink_fields c) && isContainer (instance (sink_fields c)) = true ->
      isOk (connectWithSecret p 2 (stateSecret (sink_fields c))) = true) ->
     let o := run (sink_Do p op) c in
     let f0 := sink_fields c in
     exists a f,
       driverEvents (trace_of o) = [MigrateReceive a] /\
       driverCalls (trace_of o) = 1 /\
       argsMatch (recv_MigrateArgs a) (sink_fields c)
         (sink_clusterMoveSourceName c) /\
       sink_fields (session_of o) = afterTransfer p f /\
       (exists c0, connectWithSecret p 0 (controlSecret f0) = Ok c0 /\
          controlConn f = Some c0) /\
       (exists c1, connectWithSecret p 1 (fsSecret f0) = Ok c1 /\
          fsConn f = Some c1 /\
          FilesystemConn (recv_MigrateArgs a) f = Some {| Conn := c1 |}) /\
       (if live f0 && isContainer (instance f0)
        then exists c2, connectWithSecret p 2 (stateSecret f0) = Ok c2 /\
               stateConn f = Some c2 /\
               StateConn (recv_MigrateArgs a) f = Some {| Conn := c2 |}
        else stateConn f = stateConn f0 /\
             StateConn (recv_MigrateArgs a) f = streamOver (stateConn f0))).
Proof.
  split; [|split].
  - intros s H o f. subst o f. rewrite source_Do_run.
    pose proof (allBound_bound _ H) as (_ & [cf Hfs] & Hst).
    pose proof (fun r x => awaitBinds_connOf connectTimeout (binds p) r x
                             (src_fields s)) as Hby.
    apply awaitBinds_done in H.
    pose proof (awaitBinds_sameConfig connectTimeout (binds p) (src_fields s))
      as Hcfg.
    destruct (awaitBinds connectTimeout (binds p) (src_fields s)) as [f sel].
    simpl in H, Hcfg, Hfs, Hst, Hby. subst sel.
    exists (sourceArgs s f). driver_events.
    split; [reflexivity|]. split; [reflexivity|]. split.
    { apply (migrateArgs_match _ _ _ Hcfg). }
    split. { simpl. by destruct Hcfg as (_&_&_&_&_&_&Ha). }
    split; [reflexivity|]. split; [exact Hby|]. split.
    { exists cf. split; [done|]. simpl. unfold filesystemConnFunc.
      by rewrite Hfs. }
    split. { simpl. unfold stateConnFunc, streamOver.
             by destruct (stateConn f). }
    intros Hl. destruct Hcfg as (_&_&_&Hlive&_&Hinst&_).
    rewrite <- Hlive, <- Hinst in Hl. destruct (Hst Hl) as [cs Hcs].
    simpl. unfold stateConnFunc. rewrite Hcs. by eexists.
  - intros c Hpush H o f. subst o f. rewrite (sink_Do_push _ _ _ Hpush).
    pose proof (allBound_bound _ H) as (_ & [cf Hfs] & Hst).
    pose proof (fun r x => awaitBinds_connOf connectTimeout (binds p) r x
                             (sink_fields c)) as Hby.
    apply awaitBinds_done in H.
    pose proof (awaitBinds_sameConfig connectTimeout (binds p) (sink_fields c))
      as Hcfg.
    destruct (awaitBinds connectTimeout (binds p) (sink_fields c)) as [f sel].
    simpl in H, Hcfg, Hfs, Hst, Hby. subst sel.
    exists (sinkArgs c f op). driver_events.
    split; [reflexivity|]. split; [reflexivity|]. split.
    { apply (migrateArgs_match _ _ _ Hcfg). }
    split; [reflexivity|]. split; [exact Hby|]. split.
    { exists cf. split; [done|]. simpl. unfold filesystemConnFunc.
      by rewrite Hfs. }
    split. { simpl. unfold stateConnFunc, streamOver.
             by destruct (stateConn f). }
    intros Hl. destruct Hcfg as (_&_&_&Hlive&_&Hinst&_).
    rewrite <- Hlive, <- Hinst in Hl. destruct (Hst Hl) as [cs Hcs].
    simpl. unfold stateConnFunc. rewrite Hcs. by eexists.
  - intros c Hpush H0 H1 H2 o f0. subst o f0.
    rewrite (sink_Do_pull _ _ _ Hpush). cbv zeta.
    destruct (connectWithSecret p 0 (controlSecret (sink_fields c)))
      as [c0|]; [|discriminate].
    destruct (connectWithSecret p 1 (fsSecret (sink_fields c)))
      as [c1|]; [|discriminate].
    destruct (live (sink_fields c) && isContainer (instance (sink_fields c))).
    + specialize (H2 eq_refl).
      destruct (connectWithSecret p 2 (stateSecret (sink_fields c)))
        as [c2|]; [|discriminate].
      eexists. eexists. driver_events.
      split; [reflexivity|]. split; [reflexivity|]. split.
      { apply migrateArgs_match. repeat split. }
      split; [reflexivity|]. split; [by exists c0|].
      split; [by exists c1|]. by exists c2.
    + eexists. eexists. driver_events.
      split; [reflexivity|]. split; [reflexivity|]. split.
      { apply migrateArgs_match. repeat split. }
      split; [reflexivity|]. split; [by exists c0|].
      split; [by exists c1|]. split; [reflexivity|].
      simpl. unfold stateConnFunc, streamOver. simpl.
      by destruct (stateConn (sink_fields c)).
Qed.

(** All three channels bind in time, or all three dials succeed: the
    driver runs once and finds a stream over the connection of each data
    channel (connections 2 and 3, both closed once [Do()] is over). *)
Lemma Do_invokes_driver_once_witness :
  driverCalls (trace_of (run (source_Do Sample.peerAll Sample.op)
                           (Sample.source Sample.container true))) = 1 /\
  driverCalls (trace_of (run (sink_Do Sample.peerAll Sample.op)
                           (Sample.sink Sample.container true true))) = 1 /\
  (exists a f,
     driverEvents (trace_of (run (sink_Do Sample.peerAll Sample.op)
                               (Sample.sink Sample.container true false)))
       = [MigrateReceive a] /\
     sink_fields (session_of (run (sink_Do Sample.peerAll Sample.op)
                                (Sample.sink Sample.container true false)))
       = afterTransfer Sample.peerAll f /\
     FilesystemConn (recv_MigrateArgs a) f
       = Some {| Conn := Sample.conn 2 |} /\
     StateConn (recv_MigrateArgs a) f = Some {| Conn := Sample.conn 3 |}).
Proof.
  destruct (Do_invokes_driver_once Sample.peerAll Sample.op)
    as (Hsrc & Hpush & Hpull).
  split; [|split].
  - destruct (Hsrc (Sample.source Sample.container true) eq_refl)
      as (a & _ & H & _).
    exact H.
  - destruct (Hpush (Sample.sink Sample.container true true) eq_refl eq_refl)
      as (a & _ & H & _).
    exact H.
  - destruct (Hpull (Sample.sink Sample.container true false)
                eq_refl eq_refl eq_refl (fun _ => eq_refl))
      as (a & f & Hev & _ & _ & Hfin & _ & (c1 & Hd1 & _ & Hfs) &
          (c2 & Hd2 & _ & Hst)).
    exists a, f. split; [exact Hev|]. split; [exact Hfin|].
    injection Hd1 as <-. injection Hd2 as <-.
    split; [exact Hfs|exact Hst].
Defined.

(** ** Pull-mode dialing *)



(** ** Construction of a pull-mode sink *)

Ltac unfold_new :=
  cbv [newMigrationSource newMigrationSink mapGet orWrap mbind mret
       result_bind result_ret].

Lemma newMigrationSink_pull (h : Host) (args : migrationSinkArgs) :
  arg_Push args = false ->
  newMigrationSink h args =
  match arg_Secrets args !! SecretNameControl with
  | None => Err (Errorf "Missing migration sink secret for control websocket")
  | Some cs =>
      match arg_Secrets args !! SecretNameFilesystem with
      | None =>
          Err (Errorf "Missing migration sink secret for filesystem websocket")
      | Some fs =>
          let f := pullFields args cs fs in
          if isContainer (arg_Instance args)
             && (live f && negb (isOk (LookPath h "criu")))
          then Err ErrNoLiveMigrationTarget
          else Ok (sinkOf args f)
      end
  end.
Proof.
  intros Hpush. unfold_new. unfold pullFields, sinkOf, isContainer.
  rewrite Hpush.
  destruct (arg_Secrets args !! SecretNameControl) as [cs|]; [|reflexivity].
  destruct (arg_Secrets args !! SecretNameFilesystem) as [fs|]; [|reflexivity].
  cbn.
  destruct (arg_Secrets args !! SecretNameState) as [ss|]; cbn;
    case_bool_decide; cbn; try reflexivity;
    match goal with |- context [if ?b then Err _ else _] =>
      destruct b end; reflexivity.
Qed.

(** C7: a pull-mode sink cannot be constructed without the control entry
    or without the filesystem entry of the secrets table; with both, the
    live flag the constructor works with, and that of the session it
    returns, is (state entry present) OR (live argument). *)
Theorem pull_sink_secrets (h : Host) (args : migrationSinkArgs) :
  arg_Push args = false ->
  let tbl := arg_Secrets args in
  match tbl !! SecretNameControl, tbl !! SecretNameFilesystem with
  | None, _ =>
      newMigrationSink h args
        = Err (Errorf "Missing migration sink secret for control websocket")
  | Some _, None =>
      newMigrationSink h args
        = Err (Errorf "Missing migration sink secret for filesystem websocket")
  | Some cs, Some fs =>
      let effective :=
        bool_decide (is_Some (tbl !! SecretNameState)) || arg_Live args in
      match newMigrationSink h args with
      | Ok c =>
          live (sink_fields c) = effective /\
          controlSecret (sink_fields c) = cs /\
          fsSecret (sink_fields c) = fs /\
          stateSecret (sink_fields c) = default "" (tbl !! SecretNameState)
      | Err e =>
          e = ErrNoLiveMigrationTarget /\
          effective = true /\
          inst_type (arg_Instance args) = Container /\
          isOk (LookPath h "criu") = false
      end
  end.
Proof.
  intros Hpush tbl. subst tbl. unfold_new. rewrite Hpush.
  destruct (arg_Secrets args !! SecretNameControl) as [cs|]; [|reflexivity].
  destruct (arg_Secrets args !! SecretNameFilesystem) as [fs|]; [|reflexivity].
  cbn.
  destruct (arg_Secrets args !! SecretNameState) as [ss|]; cbn.
  - case_bool_decide as Hty; cbn.
    + destruct (LookPath h "criu"); cbn; repeat split; done.
    + repeat split.
  - case_bool_decide as Hty; cbn.
    + destruct (arg_Live args); cbn; [|repeat split].
      destruct (LookPath h "criu"); cbn; repeat split; done.
    + repeat split.
Qed.

Lemma pull_sink_secrets_witness :
  arg_Push (Sample.sinkArgsOf Sample.container false false Sample.table2) = false /\
  match newMigrationSink Sample.host
          (Sample.sinkArgsOf Sample.container false false Sample.table2) with
  | Ok c => live (sink_fields c) = false /\ controlSecret (sink_fields c) = "c1"
  | Err _ => False
  end.
Proof.
  split; [reflexivity|].
  pose proof (pull_sink_secrets Sample.host
                (Sample.sinkArgsOf Sample.container false false Sample.table2)
                eq_refl) as H.
  vm_compute in H. vm_compute.
  destruct H as (H1 & H2 & _). exact (conj H1 H2).
Defined.

(** ** Construction of a source *)

(** C9: a constructed source carries the control and filesystem secrets
    that were drawn; it is live iff stateful transfer was requested and
    the workload is running; the state secret is drawn only for a live
    container (after the probe succeeded) and is empty otherwise.  A VM is
    accepted whatever the probe says, live or not, without a state
    secret. *)
Theorem source_construction (h : Host) (inst : Instance)
    (stateful instanceOnly allowInconsistent : bool) (name : string) :
  let r := newMigrationSource h inst stateful instanceOnly allowInconsistent
             name in
  let isLive := stateful && inst_running inst in
  (forall s, r = Ok s ->
     RandomCryptoString h 0 = Ok (controlSecret (src_fields s)) /\
     RandomCryptoString h 1 = Ok (fsSecret (src_fields s)) /\
     live (src_fields s) = isLive /\
     (if isLive && isContainer inst
      then RandomCryptoString h 2 = Ok (stateSecret (src_fields s)) /\
           isOk (LookPath h "criu") = true
      else stateSecret (src_fields s) = "")) /\
  (inst_type inst = VM ->
   forall cs fs,
     RandomCryptoString h 0 = Ok cs ->
     RandomCryptoString h 1 = Ok fs ->
     exists s, r = Ok s /\
       controlSecret (src_fields s) = cs /\
       fsSecret (src_fields s) = fs /\
       live (src_fields s) = isLive /\
       stateSecret (src_fields s) = "").
Proof.
  intros r isLive. subst r isLive. unfold isContainer. split.
  - intros s. unfold_new.
    destruct (RandomCryptoString h 0) as [cs|]; [|discriminate].
    destruct (RandomCryptoString h 1) as [fs|]; [|discriminate].
    destruct (stateful && inst_running inst); cbn.
    + case_bool_decide as Hty; cbn.
      * destruct (LookPath h "criu"); [|discriminate].
        destruct (RandomCryptoString h 2) as [ss|]; [|discriminate].
        intros [= <-]. repeat split.
      * intros [= <-]. repeat split.
    + intros [= <-]. repeat split.
  - intros Hvm cs fs H0 H1. unfold_new. rewrite H0, H1, Hvm.
    destruct (stateful && inst_running inst); cbn; eexists; repeat split.
Qed.

Lemma source_construction_witness :
  inst_type Sample.vm = VM /\
  exists s,
    newMigrationSource Sample.hostNoCriu Sample.vm true false false "" = Ok s /\
    live (src_fields s) = true /\
    stateSecret (src_fields s) = "".
Proof.
  split; [reflexivity|].
  destruct (source_construction Sample.hostNoCriu Sample.vm true false false "")
    as [Hany Hvm].
  destruct (Hvm eq_refl "c1" "f1" eq_refl eq_refl) as (s & Hs & _ & _ & Hl & Hss).
  destruct (Hany s Hs) as (_ & _ & _ & _).
  exists s. exact (conj Hs (conj Hl Hss)).
Defined.

(** ** The capability probe *)

(** C4, as the code has it: when live transfer applies to a container and
    criu is not found, no session is produced.  The error is the
    capability-missing one whenever the secret steps that run before the
    probe went through (source: control and filesystem drawn; push-mode
    sink: control, filesystem and state drawn; pull-mode sink: control and
    filesystem entries supplied); otherwise it is the error of the first
    of these steps that fails: the failed draw's error under the message
    of its channel, or the missing-secret error of the absent entry. *)
Theorem probe_failure_fails_construction (h : Host) :
  isOk (LookPath h "criu") = false ->
  (forall inst stateful instanceOnly allowInconsistent name,
     stateful && inst_running inst = true ->
     inst_type inst = Container ->
     let r := newMigrationSource h inst stateful instanceOnly
                allowInconsistent name in
     isOk r = false /\
     (isOk (RandomCryptoString h 0) && isOk (RandomCryptoString h 1) = true ->
      r = Err ErrNoLiveMigrationSource) /\
     (forall e, RandomCryptoString h 0 = Err e ->
        r = Err (Wrapf "Failed creating migration source secret for control websocket" e)) /\
     (forall e, isOk (RandomCryptoString h 0) = true ->
        RandomCryptoString h 1 = Err e ->
        r = Err (Wrapf "Failed creating migration source secret for filesystem websocket" e))) /\
  (forall args,
     inst_type (arg_Instance args) = Container ->
     (if arg_Push args then arg_Live args
      else bool_decide (is_Some (arg_Secrets args !! SecretNameState))
           || arg_Live args) = true ->
     let r := newMigrationSink h args in
     isOk r = false /\
     ((if arg_Push args
       then isOk (RandomCryptoString h 0) && isOk (RandomCryptoString h 1)
            && isOk (RandomCryptoString h 2)
       else bool_decide (is_Some (arg_Secrets args !! SecretNameControl))
            && bool_decide (is_Some (arg_Secrets args !! SecretNameFilesystem)))
      = true ->
      r = Err ErrNoLiveMigrationTarget) /\
     (arg_Push args = true ->
      (forall e, RandomCryptoString h 0 = Err e ->
         r = Err (Wrapf "Failed creating migration sink secret for control websocket" e)) /\
      (forall e, isOk (RandomCryptoString h 0) = true ->
         RandomCryptoString h 1 = Err e ->
         r = Err (Wrapf "Failed creating migration sink secret for filesystem websocket" e)) /\
      (forall e, isOk (RandomCryptoString h 0) = true ->
         isOk (RandomCryptoString h 1) = true ->
         RandomCryptoString h 2 = Err e ->
         r = Err (Wrapf "Failed creating migration sink secret for state websocket" e))) /\
     (arg_Push args = false ->
      (arg_Secrets args !! SecretNameControl = None ->
       r = Err (Errorf "Missing migration sink secret for control websocket")) /\
      (is_Some (arg_Secrets args !! SecretNameControl) ->
       arg_Secrets args !! SecretNameFilesystem = None ->
       r = Err (Errorf "Missing migration sink secret for filesystem websocket")))).
Proof.
  intros Hprobe. split.
  - intros inst stateful instanceOnly allowInconsistent name Hlive Hty r.
    subst r. unfold_new. rewrite Hlive, Hty.
    destruct (RandomCryptoString h 0) as [cs|e0].
    2:{ repeat split; try done; intros; by simplify_eq. }
    destruct (RandomCryptoString h 1) as [fs|e1].
    2:{ repeat split; try done; intros; by simplify_eq. }
    cbn. destruct (LookPath h "criu"); [discriminate|].
    repeat split; done.
  - intros args Hty Hlive r. subst r. unfold_new.
    destruct (arg_Push args).
    + destruct (RandomCryptoString h 0) as [cs|e0].
      2:{ repeat split; try done; intros; by simplify_eq. }
      destruct (RandomCryptoString h 1) as [fs|e1].
      2:{ repeat split; try done; intros; by simplify_eq. }
      cbn. rewrite Hlive.
      destruct (RandomCryptoString h 2) as [ss|e2].
      2:{ repeat split; try done; intros; by simplify_eq. }
      cbn. rewrite Hty, Hprobe. repeat split; done.
    + destruct (arg_Secrets args !! SecretNameControl) as [cs|].
      2:{ repeat split; try done; intros; by simplify_eq. }
      destruct (arg_Secrets args !! SecretNameFilesystem) as [fs|].
      2:{ repeat split; done. }
      cbn.
      destruct (arg_Secrets args !! SecretNameState); cbn in *;
        rewrite Hty, ?Hlive, Hprobe; repeat split; done.
Qed.

(** With criu missing the three constructions of a live container give
    the capability error; when in addition the third draw of randomness
    fails, the push-mode sink gives that draw's error. *)
Lemma probe_failure_fails_construction_witness :
  isOk (LookPath Sample.hostNoCriu "criu") = false /\
  newMigrationSource Sample.hostNoCriu Sample.container true false false ""
    = Err ErrNoLiveMigrationSource /\
  newMigrationSink Sample.hostNoCriu
    (Sample.sinkArgsOf Sample.container true true ∅)
    = Err ErrNoLiveMigrationTarget /\
  newMigrationSink Sample.hostNoCriu
    (Sample.sinkArgsOf Sample.container false true Sample.table2)
    = Err ErrNoLiveMigrationTarget /\
  newMigrationSink Sample.hostDry
    (Sample.sinkArgsOf Sample.container true true ∅)
    = Err (Wrapf "Failed creating migration sink secret for state websocket"
             (Errorf "unexpected EOF")).
Proof.
  split; [reflexivity|].
  destruct (probe_failure_fails_construction Sample.hostNoCriu eq_refl)
    as [Hsrc Hsink].
  destruct (probe_failure_fails_construction Sample.hostDry eq_refl)
    as [_ Hdry].
  split; [|split; [|split]].
  - exact (proj1 (proj2 (Hsrc Sample.container true false false ""
                           eq_refl eq_refl)) eq_refl).
  - exact (proj1 (proj2 (Hsink (Sample.sinkArgsOf Sample.container true true ∅)
                           eq_refl eq_refl)) eq_refl).
  - exact (proj1 (proj2 (Hsink (Sample.sinkArgsOf Sample.container false true
                                  Sample.table2) eq_refl eq_refl)) eq_refl).
  - destruct (Hdry (Sample.sinkArgsOf Sample.container true true ∅)
                eq_refl eq_refl) as (_ & _ & Hpush & _).
    destruct (Hpush eq_refl) as (_ & _ & Hstate).
    exact (Hstate (Errorf "unexpected EOF") eq_refl eq_refl eq_refl).
Defined.

(** criu is missing for a live container, yet the error is the one of the
    secret step that comes first. *)
Lemma probe_failure_counterexample :
  (let args := Sample.sinkArgsOf Sample.container true true ∅ in
   arg_Live args = true /\
   inst_type (arg_Instance args) = Container /\
   isOk (LookPath Sample.hostDry "criu") = false /\
   newMigrationSink Sample.hostDry args
     = Err (Wrapf "Failed creating migration sink secret for state websocket"
              (Errorf "unexpected EOF")) /\
   newMigrationSink Sample.hostDry args <> Err ErrNoLiveMigrationTarget) /\
  (let args := Sample.sinkArgsOf Sample.container false true ∅ in
   arg_Live args = true /\
   inst_type (arg_Instance args) = Container /\
   isOk (LookPath Sample.hostNoCriu "criu") = false /\
   newMigrationSink Sample.hostNoCriu args
     = Err (Errorf "Missing migration sink secret for control websocket") /\
   newMigrationSink Sample.hostNoCriu args <> Err ErrNoLiveMigrationTarget).
Proof. repeat split; discriminate. Qed.

(** ** Presence of the state secret *)

(** A live push-mode sink for a VM holds a state secret. *)
Lemma state_secret_counterexample :
  exists c,
    newMigrationSink Sample.host (Sample.sinkArgsOf Sample.vm true true ∅)
      = Ok c /\
    stateSecret (sink_fields c) = "s1" /\
    stateSecret (sink_fields c) <> "" /\
    live (sink_fields c) = true /\
    isContainer (instance (sink_fields c)) = false.
Proof. eexists. split; [reflexivity|]. repeat split. discriminate. Qed.

(** The third dial of a pull-mode [Do()] happens only for a live
    container, and always for one once control and filesystem are open. *)
Lemma pull_third_dial p op c :
  sink_push c = false ->
  (length (dialsOf (trace_of (run (sink_Do p op) c))) = 3 ->
   live (sink_fields c) && isContainer (instance (sink_fields c)) = true) /\
  (isOk (connectWithSecret p 0 (controlSecret (sink_fields c))) = true ->
   isOk (connectWithSecret p 1 (fsSecret (sink_fields c))) = true ->
   live (sink_fields c) && isContainer (instance (sink_fields c)) = true ->
   dialsOf (trace_of (run (sink_Do p op) c))
     = [controlSecret (sink_fields c); fsSecret (sink_fields c);
        stateSecret (sink_fields c)]).
Proof.
  intros Hpush. rewrite (sink_Do_pull _ _ _ Hpush). cbv zeta.
  destruct (connectWithSecret p 0 (controlSecret (sink_fields c))) as [c0|e0];
    [|split; discriminate].
  destruct (connectWithSecret p 1 (fsSecret (sink_fields c))) as [c1|e1];
    [|split; discriminate].
  destruct (live (sink_fields c) && isContainer (instance (sink_fields c))).
  - destruct (connectWithSecret p 2 (stateSecret (sink_fields c))) as [c2|e2].
    + unfold pullTransferred, driverErrLog.
      destruct (drv_result (driver p)); split; reflexivity.
    + split; reflexivity.
  - unfold pullTransferred, driverErrLog.
    destruct (drv_result (driver p)); split; discriminate.
Qed.

(** C6, as the code has it: a constructed source has a state secret iff
    it is live and the workload is a container; a constructed push-mode
    sink has one iff it is live, whatever the workload; a constructed
    pull-mode sink has whatever the table holds under state, and is live
    whenever that entry is there.  In pull mode the state channel is dialed
    only for a live container. *)
Theorem state_secret_presence (h : Host) :
  (forall n v, RandomCryptoString h n = Ok v -> v <> "") ->
  (forall inst stateful instanceOnly allowInconsistent name s,
     newMigrationSource h inst stateful instanceOnly allowInconsistent name
       = Ok s ->
     (stateSecret (src_fields s) <> ""
      <-> live (src_fields s) && isContainer (instance (src_fields s)) = true))
  /\
  (forall args c,
     newMigrationSink h args = Ok c ->
     if arg_Push args
     then stateSecret (sink_fields c) <> "" <-> live (sink_fields c) = true
     else stateSecret (sink_fields c)
            = default "" (arg_Secrets args !! SecretNameState) /\
          (is_Some (arg_Secrets args !! SecretNameState) ->
           live (sink_fields c) = true) /\
          forall p op,
            length (dialsOf (trace_of (run (sink_Do p op) c))) = 3 ->
            live (sink_fields c) && isContainer (instance (sink_fields c))
              = true).
Proof.
  intros Hrng. split.
  - intros inst stateful instanceOnly allowInconsistent name s.
    unfold_new. unfold isContainer.
    destruct (RandomCryptoString h 0) as [cs|]; [|discriminate].
    destruct (RandomCryptoString h 1) as [fs|]; [|discriminate].
    destruct (stateful && inst_running inst); cbn.
    + case_bool_decide as Hty; cbn.
      * destruct (LookPath h "criu"); [|discriminate].
        destruct (RandomCryptoString h 2) as [ss|] eqn:E2; [|discriminate].
        intros [= <-]. cbn. rewrite bool_decide_true by done.
        split; [done|]. intros _. exact (Hrng _ _ E2).
      * intros [= <-]. cbn. rewrite bool_decide_false by done.
        split; [done|discriminate].
    + intros [= <-]. cbn. split; [done|discriminate].
  - intros args c.
    destruct (arg_Push args) eqn:Hpush.
    + unfold_new. rewrite Hpush.
      destruct (RandomCryptoString h 0) as [cs|]; [|discriminate].
      destruct (RandomCryptoString h 1) as [fs|]; [|discriminate].
      cbn. destruct (arg_Live args); cbn.
      * destruct (RandomCryptoString h 2) as [ss|] eqn:E2; [|discriminate].
        cbn. case_bool_decide; cbn.
        -- destruct (LookPath h "criu"); [|discriminate]. cbn.
           intros [= <-]. cbn. split; [done|]. intros _. exact (Hrng _ _ E2).
        -- intros [= <-]. cbn. split; [done|]. intros _. exact (Hrng _ _ E2).
      * case_bool_decide; cbn; intros [= <-]; cbn; split; done.
    + rewrite (newMigrationSink_pull h args Hpush).
      destruct (arg_Secrets args !! SecretNameControl) as [cs|];
        [|discriminate].
      destruct (arg_Secrets args !! SecretNameFilesystem) as [fs|];
        [|discriminate].
      cbv zeta.
      destruct (isContainer (arg_Instance args)
                && (live (pullFields args cs fs)
                    && negb (isOk (LookPath h "criu")))); [discriminate|].
      intros [= <-]. split; [reflexivity|]. split.
      * intros Hss. cbn. by rewrite bool_decide_true.
      * intros p op. apply pull_third_dial. exact Hpush.
Qed.

Lemma state_secret_presence_witness :
  (forall n v, RandomCryptoString Sample.host n = Ok v -> v <> "") /\
  (forall c,
     newMigrationSink Sample.host (Sample.sinkArgsOf Sample.vm true true ∅)
       = Ok c ->
     stateSecret (sink_fields c) <> "" <-> live (sink_fields c) = true).
Proof.
  assert (Hrng : forall n v,
            RandomCryptoString Sample.host n = Ok v -> v <> "").
  { intros [|[|n]] v [= <-]; discriminate. }
  split; [exact Hrng|].
  intros c Hc.
  exact (proj2 (state_secret_presence Sample.host Hrng)
           (Sample.sinkArgsOf Sample.vm true true ∅) c Hc).
Defined.

(** ** Pull mode with the live argument but no state entry *)

(** No state entry, live argument set, container, criu missing:
    construction fails. *)
Lemma pull_live_without_state_counterexample :
  let args := Sample.sinkArgsOf Sample.container false true Sample.table2 in
  arg_Push args = false /\
  arg_Secrets args !! SecretNameState = None /\
  arg_Live args = true /\
  newMigrationSink Sample.hostNoCriu args = Err ErrNoLiveMigrationTarget /\
  isOk (newMigrationSink Sample.hostNoCriu args) = false.
Proof. repeat split. Qed.

(** C10, as the code has it: in pull mode with no state entry and the
    live argument set, construction succeeds provided the control and
    filesystem entries are supplied and, for a container, criu is found;
    the session is then live with the empty string as state secret, and
    for a container [Do()] dials the state channel with that empty secret
    once the control and filesystem dials have succeeded. *)
Theorem pull_live_without_state_secret (h : Host) (args : migrationSinkArgs)
    (cs fs : string) :
  arg_Push args = false ->
  arg_Secrets args !! SecretNameState = None ->
  arg_Live args = true ->
  arg_Secrets args !! SecretNameControl = Some cs ->
  arg_Secrets args !! SecretNameFilesystem = Some fs ->
  (inst_type (arg_Instance args) = Container ->
   isOk (LookPath h "criu") = true) ->
  exists c,
    newMigrationSink h args = Ok c /\
    stateSecret (sink_fields c) = "" /\
    live (sink_fields c) = true /\
    (inst_type (arg_Instance args) = Container ->
     forall p op,
       isOk (connectWithSecret p 0 cs) = true ->
       isOk (connectWithSecret p 1 fs) = true ->
       dialsOf (trace_of (run (sink_Do p op) c)) = [cs; fs; ""]).
Proof.
  intros Hpush Hstate Hlive Hcs Hfs Hprobe.
  exists (sinkOf args (pullFields args cs fs)).
  assert (Hl : live (pullFields args cs fs) = true).
  { cbn. rewrite Hlive. apply orb_true_r. }
  assert (Hss : stateSecret (pullFields args cs fs) = "").
  { cbn. by rewrite Hstate. }
  split; [|split; [exact Hss|split; [exact Hl|]]].
  - rewrite (newMigrationSink_pull h args Hpush), Hcs, Hfs. cbv zeta.
    rewrite Hl. unfold isContainer. case_bool_decide as Hty; [|reflexivity].
    by rewrite (Hprobe Hty).
  - intros Hty p op H0 H1.
    pose proof (pull_third_dial p op (sinkOf args (pullFields args cs fs))
                  Hpush) as [_ Hdial].
    cbn [sinkOf sink_fields] in Hdial. rewrite Hss in Hdial.
    apply Hdial; [exact H0|exact H1|].
    rewrite Hl. unfold isContainer. cbn. by rewrite bool_decide_true.
Qed.

Lemma pull_live_without_state_secret_witness :
  let args := Sample.sinkArgsOf Sample.container false true Sample.table2 in
  arg_Push args = false /\
  arg_Secrets args !! SecretNameState = None /\
  exists c,
    newMigrationSink Sample.host args = Ok c /\
    stateSecret (sink_fields c) = "" /\
    dialsOf (trace_of (run (sink_Do Sample.peerAll Sample.op) c))
      = ["c1"; "f1"; ""].
Proof.
  split; [reflexivity|]. split; [reflexivity|].
  destruct (pull_live_without_state_secret Sample.host
              (Sample.sinkArgsOf Sample.container false true Sample.table2)
              "c1" "f1" eq_refl eq_refl eq_refl eq_refl eq_refl
              (fun _ => eq_refl))
    as (c & Hc & Hss & _ & Hdo).
  exists c. split; [exact Hc|]. split; [exact Hss|].
  exact (Hdo eq_refl Sample.peerAll Sample.op eq_refl eq_refl).
Defined.

(** ** The driver's disconnect callback *)

(** With all three channels bound the callback leaves the control
    connection open. *)
Lemma disconnect_callback_counterexample :
  let f := Sample.boundFields in
  let f' := Disconnect (migrateArgs f "") f in
  controlConn f = Some (Sample.conn 1) /\
  controlConn f' = Some (Sample.conn 1) /\
  isClosed (Sample.conn 1) = false /\
  allClosed f' = false.
Proof. repeat split. Qed.

Lemma isClosed_Close c : isClosed (Close c) = true.
Proof. unfold isClosed, Close; cbn. apply bool_decide_eq_true. lia. Qed.

(** C5, as the code has it: the disconnect callback handed to the driver
    calls [Close()] on the filesystem and the state connection when they
    are bound, so both are closed afterwards; the control connection and
    everything else in the session are left as they were. *)
Theorem disconnect_callback_closes_data_channels
    (f g : migrationFields) (name : string) :
  let g' := Disconnect (migrateArgs f name) g in
  fsConn g' = Close <$> fsConn g /\
  stateConn g' = Close <$> stateConn g /\
  from_option isClosed true (fsConn g') = true /\
  from_option isClosed true (stateConn g') = true /\
  controlConn g' = controlConn g /\
  sameConfig g g'.
Proof.
  cbn. unfold disconnectFunc.
  destruct (fsConn g) as [c1|] eqn:E1, (stateConn g) as [c2|] eqn:E2;
    cbn; rewrite ?E1, ?E2; cbn; repeat split;
    first [assumption | apply isClosed_Close | by rewrite E2].
Qed.

(** ** Teardown *)

(** Exits of [Do()] on which [disconnect()] never runs: the barrier
    timeout of a push-mode sink and of a source, each with the filesystem
    channel already bound, and a refused control dial. *)
Lemma teardown_counterexample :
  (let o := run (sink_Do Sample.peerFsOnly Sample.op)
              (Sample.sink Sample.container true true) in
   result_of o = Some errTimedOut /\
   trace_of o = [LogInfo "Waiting for migration channel connections on target";
                 BarrierCancel] /\
   ranDisconnect (trace_of o) = false /\
   fsConn (sink_fields (session_of o)) = Some (Sample.conn 7) /\
   allClosed (sink_fields (session_of o)) = false) /\
  (let o := run (source_Do Sample.peerFsOnly Sample.op)
              (Sample.source Sample.container true) in
   result_of o = Some errTimedOut /\
   ranDisconnect (trace_of o) = false /\
   fsConn (src_fields (session_of o)) = Some (Sample.conn 7) /\
   allClosed (src_fields (session_of o)) = false) /\
  (let o := run (sink_Do (Sample.peerRefusing 0) Sample.op)
              (Sample.sink Sample.container true false) in
   result_of o
     = Some (Wrapf "Failed connecting migration control sink socket"
               Sample.refused) /\
   ranDisconnect (trace_of o) = false).
Proof. repeat split. Qed.

Lemma isClosed_closeOnce c :
  from_option isClosed true (closeOnce c) = true.
Proof.
  destruct c as [c|]; [|reflexivity]. cbn.
  destruct (isClosed c) eqn:E; [exact E|apply isClosed_Close].
Qed.

Lemma allClosed_disconnectFields f : allClosed (disconnectFields f) = true.
Proof.
  unfold allClosed, disconnectFields; cbn.
  pose proof (isClosed_closeOnce (controlConn f)) as Hc.
  pose proof (isClosed_closeOnce (fsConn f)) as Hf.
  pose proof (isClosed_closeOnce (stateConn f)) as Hs.
  destruct (closeOnce (controlConn f)), (closeOnce (fsConn f)),
    (closeOnce (stateConn f)); cbn in *; rewrite ?Hc, ?Hf, ?Hs; reflexivity.
Qed.

Lemma ranDisconnect_transfer pre p msg post :
  ranDisconnect post = true ->
  ranDisconnect (pre ++ driverErrLog p msg ++ post) = true.
Proof.
  intros H. unfold ranDisconnect in *. rewrite !existsb_app, H.
  by rewrite !orb_true_r.
Qed.

(** C1, as the code has it: teardown runs on every exit of [Do()] that
    lies behind a satisfied barrier (source, push-mode sink) or behind a
    successful control dial (pull-mode sink), whether the driver succeeds
    or fails and whether a later dial is refused, and every connection
    bound in the session is closed afterwards.  A pull-mode [Do()] whose
    control dial is refused returns without teardown and with no control
    connection. *)
Theorem teardown_after_channels_open (p : Peer) (op : opHandle) :
  (forall s,
     allBound (awaitBinds connectTimeout (binds p) (src_fields s)).1 = true ->
     let o := run (source_Do p op) s in
     ranDisconnect (trace_of o) = true /\
     allClosed (src_fields (session_of o)) = true) /\
  (forall c,
     sink_push c = true ->
     allBound (awaitBinds connectTimeout (binds p) (sink_fields c)).1 = true ->
     let o := run (sink_Do p op) c in
     ranDisconnect (trace_of o) = true /\
     allClosed (sink_fields (session_of o)) = true) /\
  (forall c,
     sink_push c = false ->
     let o := run (sink_Do p op) c in
     if isOk (connectWithSecret p 0 (controlSecret (sink_fields c)))
     then ranDisconnect (trace_of o) = true /\
          allClosed (sink_fields (session_of o)) = true
     else ranDisconnect (trace_of o) = false /\
          controlConn (sink_fields (session_of o)) = None).
Proof.
  split; [|split].
  - intros s H o. subst o. rewrite source_Do_run.
    apply awaitBinds_done in H.
    destruct (awaitBinds connectTimeout (binds p) (src_fields s)) as [f sel].
    simpl in H. subst sel. cbv [trace_of session_of snd fst]. split.
    + apply (ranDisconnect_transfer [_; _; _; _]). reflexivity.
    + apply allClosed_disconnectFields.
  - intros c Hpush H o. subst o. rewrite (sink_Do_push _ _ _ Hpush).
    apply awaitBinds_done in H.
    destruct (awaitBinds connectTimeout (binds p) (sink_fields c)) as [f sel].
    simpl in H. subst sel. cbv [trace_of session_of snd fst]. split.
    + apply (ranDisconnect_transfer [_; _; _]). reflexivity.
    + apply allClosed_disconnectFields.
  - intros c Hpush o. subst o. rewrite (sink_Do_pull _ _ _ Hpush). cbv zeta.
    destruct (connectWithSecret p 0 (controlSecret (sink_fields c)))
      as [c0|e0]; cbn [isOk]; [|split; reflexivity].
    destruct (connectWithSecret p 1 (fsSecret (sink_fields c))) as [c1|e1];
      [|split; [reflexivity|apply allClosed_disconnectFields]].
    destruct (live (sink_fields c) && isContainer (instance (sink_fields c))).
    + destruct (connectWithSecret p 2 (stateSecret (sink_fields c)))
        as [c2|e2]; [|split; [reflexivity|apply allClosed_disconnectFields]].
      unfold pullTransferred. cbv [trace_of session_of snd fst]. split.
      * rewrite (app_assoc _ [_; _]).
        apply ranDisconnect_transfer. reflexivity.
      * apply allClosed_disconnectFields.
    + unfold pullTransferred. cbv [trace_of session_of snd fst]. split.
      * rewrite (app_assoc _ [_; _]).
        apply ranDisconnect_transfer. reflexivity.
      * apply allClosed_disconnectFields.
Qed.

Lemma teardown_after_channels_open_witness :
  allBound (awaitBinds connectTimeout (binds Sample.peerAll)
              (src_fields (Sample.source Sample.container true))).1 = true /\
  allClosed (src_fields (session_of
               (run (source_Do Sample.peerAll Sample.op)
                  (Sample.source Sample.container true)))) = true /\
  allClosed (sink_fields (session_of
               (run (sink_Do Sample.peerAll Sample.op)
                  (Sample.sink Sample.container true true)))) = true /\
  ranDisconnect (trace_of
               (run (sink_Do (Sample.peerRefusing 1) Sample.op)
                  (Sample.sink Sample.container true false))) = true.
Proof.
  split; [reflexivity|].
  destruct (teardown_after_channels_open Sample.peerAll Sample.op)
    as (Hsrc & Hpush & _).
  destruct (teardown_after_channels_open (Sample.peerRefusing 1) Sample.op)
    as (_ & _ & Hpull).
  split; [|split].
  - exact (proj2 (Hsrc (Sample.source Sample.container true) eq_refl)).
  - exact (proj2 (Hpush (Sample.sink Sample.container true true)
                    eq_refl eq_refl)).
  - exact (proj1 (Hpull (Sample.sink Sample.container true false) eq_refl)).
Defined.

(** * Further properties *)

(** ** Outcome of [Do()] and of construction *)


(** X1: [migrationSourceWs.Do] returns nil exactly when the barrier was
    satisfied in time and the driver returned nil.  When the driver fails
    behind a satisfied barrier, its error is logged once and returned
    under the context "Failed migration on source". *)
Theorem source_Do_result (p : Peer) (op : opHandle) (s : migrationSourceWs) :
  let o := run (source_Do p op) s in
  let connected :=
    allBound (awaitBinds connectTimeout (binds p) (src_fields s)).1 in
  (result_of o = None <-> connected = true /\ drv_result (driver p) = None) /\
  (connected = true ->
   forall e, drv_result (driver p) = Some e ->
     result_of o = Some (Wrapf "Failed migration on source" e) /\
     loggedErrors (trace_of o) = [("Failed migration on source", e)]).
Proof.
  intros o connected. subst o connected. rewrite source_Do_run.
  pose proof (awaitBinds_done connectTimeout (binds p) (src_fields s)) as Hd.
  destruct (awaitBinds connectTimeout (binds p) (src_fields s)) as [f sel].
  cbn [fst snd] in *. destruct sel.
  - assert (allBound f = false) as ->.
    { destruct (allBound f); [|done]. discriminate (proj2 Hd eq_refl). }
    split; [|done]. split; [done|]. by intros [? _].
  - rewrite (proj1 Hd eq_refl). unfold driverErrLog, result_of, trace_of.
    cbn [fst snd]. destruct (drv_result (driver p)) as [e|].
    + split; [split; [done|by intros [_ ?]]|].
      intros _ e' [= <-]. done.
    + split; [done|]. intros _ e' [=].
Qed.

(** X2: [migrationSink.Do] returns nil exactly when the channels were
    established (push mode: the barrier was satisfied in time; pull mode:
    the control, filesystem and, for a live container, state dials all
    succeeded) and the driver returned nil. *)
Theorem sink_Do_result (p : Peer) (op : opHandle) (c : migrationSink) :
  let o := run (sink_Do p op) c in
  let f := sink_fields c in
  let established :=
    if sink_push c
    then allBound (awaitBinds connectTimeout (binds p) f).1
    else isOk (connectWithSecret p 0 (controlSecret f))
         && isOk (connectWithSecret p 1 (fsSecret f))
         && (negb (live f && isContainer (instance f))
             || isOk (connectWithSecret p 2 (stateSecret f))) in
  (result_of o = None <-> established = true /\ drv_result (driver p) = None)
  /\
  (established = true ->
   forall e, drv_result (driver p) = Some e ->
     result_of o = Some (Wrapf "Failed migration on target" e) /\
     loggedErrors (trace_of o) = [("Failed migration on target", e)]).
Proof.
  intros o f established. subst o f established.
  destruct (sink_push c) eqn:Hpush.
  - rewrite (sink_Do_push _ _ _ Hpush).
    pose proof (awaitBinds_done connectTimeout (binds p) (sink_fields c)) as Hd.
    destruct (awaitBinds connectTimeout (binds p) (sink_fields c)) as [f sel].
    cbn [fst snd] in *. destruct sel.
    + assert (allBound f = false) as ->.
      { destruct (allBound f); [|done]. discriminate (proj2 Hd eq_refl). }
      split; [|done]. split; [done|]. by intros [? _].
    + rewrite (proj1 Hd eq_refl). unfold driverErrLog, result_of, trace_of.
      cbn [fst snd]. destruct (drv_result (driver p)) as [e|].
      * split; [split; [done|by intros [_ ?]]|].
        intros _ e' [= <-]. done.
      * split; [done|]. intros _ e' [=].
  - rewrite (sink_Do_pull _ _ _ Hpush). cbv zeta.
    destruct (connectWithSecret p 0 (controlSecret (sink_fields c)))
      as [c0|e0]; cbn [isOk andb];
      [|split; [split; [done|by intros [? _]]|done]].
    destruct (connectWithSecret p 1 (fsSecret (sink_fields c)))
      as [c1|e1]; cbn [isOk andb];
      [|split; [split; [done|by intros [? _]]|done]].
    destruct (live (sink_fields c) && isContainer (instance (sink_fields c)));
      cbn [negb orb].
    + destruct (connectWithSecret p 2 (stateSecret (sink_fields c)))
        as [c2|e2]; cbn [isOk];
        [|split; [split; [done|by intros [? _]]|done]].
      unfold pullTransferred, driverErrLog, result_of, trace_of.
      cbn [fst snd]. destruct (drv_result (driver p)) as [e|].
      * split; [split; [done|by intros [_ ?]]|].
        intros _ e' [= <-]. done.
      * split; [done|]. intros _ e' [=].
    + unfold pullTransferred, driverErrLog, result_of, trace_of.
      cbn [fst snd]. destruct (drv_result (driver p)) as [e|].
      * split; [split; [done|by intros [_ ?]]|].
        intros _ e' [= <-]. done.
      * split; [done|]. intros _ e' [=].
Qed.

(** X3: the capability error comes from nowhere else.  A source fails
    with ErrNoLiveMigrationSource only when stateful transfer of a running
    container was asked for and criu is missing; a sink fails with
    ErrNoLiveMigrationTarget only for a live container with criu missing.
    A VM, or a transfer that is not live, never meets either error. *)
Theorem capability_error_only_for_live_container (h : Host) :
  (forall inst stateful instanceOnly allowInconsistent name,
     newMigrationSource h inst stateful instanceOnly allowInconsistent name
       = Err ErrNoLiveMigrationSource ->
     stateful && inst_running inst = true /\
     inst_type inst = Container /\
     isOk (LookPath h "criu") = false) /\
  (forall args,
     newMigrationSink h args = Err ErrNoLiveMigrationTarget ->
     inst_type (arg_Instance args) = Container /\
     isOk (LookPath h "criu") = false /\
     (if arg_Push args then arg_Live args
      else bool_decide (is_Some (arg_Secrets args !! SecretNameState))
           || arg_Live args) = true).
Proof.
  split.
  - intros inst stateful instanceOnly allowInconsistent name. unfold_new.
    destruct (RandomCryptoString h 0); [|discriminate].
    destruct (RandomCryptoString h 1); [|discriminate].
    destruct (stateful && inst_running inst); cbn; [|discriminate].
    case_bool_decide as Hty; cbn; [|discriminate].
    destruct (LookPath h "criu"); [|done].
    destruct (RandomCryptoString h 2); discriminate.
  - intros args. destruct (arg_Push args) eqn:Hpush.
    + unfold_new. rewrite Hpush.
      destruct (RandomCryptoString h 0); [|discriminate].
      destruct (RandomCryptoString h 1); [|discriminate].
      cbn. destruct (arg_Live args); cbn.
      * destruct (RandomCryptoString h 2); [|discriminate]. cbn.
        case_bool_decide; cbn; [|discriminate].
        destruct (LookPath h "criu"); [discriminate|done].
      * case_bool_decide; cbn; discriminate.
    + rewrite (newMigrationSink_pull h args Hpush).
      destruct (arg_Secrets args !! SecretNameControl); [|discriminate].
      destruct (arg_Secrets args !! SecretNameFilesystem); [|discriminate].
      cbv zeta. unfold isContainer. cbn.
      case_bool_decide as Hty; cbn; [|discriminate].
      destruct (bool_decide (is_Some (arg_Secrets args !! SecretNameState))
                || arg_Live args); cbn; [|discriminate].
      destruct (LookPath h "criu"); [discriminate|done].
Qed.

Lemma disconnectFunc_unbound_state f :
  stateConn f = None -> stateConn (disconnectFunc f) = None.
Proof.
  intros H. unfold disconnectFunc.
  destruct (fsConn f); cbn; by rewrite H.
Qed.

Lemma afterTransfer_unbound_state p f :
  stateConn f = None -> stateConn (afterTransfer p f) = None.
Proof.
  intros H. unfold afterTransfer.
  assert (Hk : stateConn (Nat.iter (drv_disconnects (driver p))
                            disconnectFunc f) = None).
  { induction (drv_disconnects (driver p)) as [|k IH]; [exact H|].
    cbn [Nat.iter]. by apply disconnectFunc_unbound_state. }
  unfold disconnectFields. cbn. by rewrite Hk.
Qed.

(** X4: a pull-mode sink for a transfer that is not live (no state entry,
    live argument false) is constructed from the control and filesystem
    entries alone, whether or not criu is installed.  Its [Do()], once the
    two dials succeed, dials exactly these two secrets and calls the
    driver once with Live = false, Snapshots = not InstanceOnly and a
    state accessor that returns nil. *)
Theorem pull_transfer_without_state (h : Host) (args : migrationSinkArgs)
    (cs fs : string) :
  arg_Push args = false ->
  arg_Secrets args !! SecretNameState = None ->
  arg_Live args = false ->
  arg_Secrets args !! SecretNameControl = Some cs ->
  arg_Secrets args !! SecretNameFilesystem = Some fs ->
  exists c,
    newMigrationSink h args = Ok c /\
    forall p op,
      isOk (connectWithSecret p 0 cs) = true ->
      isOk (connectWithSecret p 1 fs) = true ->
      let o := run (sink_Do p op) c in
      dialsOf (trace_of o) = [cs; fs] /\
      exists a,
        driverEvents (trace_of o) = [MigrateReceive a] /\
        Live (recv_MigrateArgs a) = false /\
        Snapshots (recv_MigrateArgs a) = negb (arg_InstanceOnly args) /\
        StateConn (recv_MigrateArgs a) (sink_fields (session_of o)) = None.
Proof.
  intros Hpush Hstate Hlive Hcs Hfs.
  exists (sinkOf args (pullFields args cs fs)).
  assert (Hl : live (pullFields args cs fs) = false).
  { cbn. by rewrite Hstate, Hlive. }
  split.
  - rewrite (newMigrationSink_pull h args Hpush), Hcs, Hfs. cbv zeta.
    rewrite Hl. by rewrite andb_false_r.
  - intros p op H0 H1 o. subst o.
    rewrite (sink_Do_pull p op (sinkOf args (pullFields args cs fs)) Hpush).
    cbv zeta. cbn [sinkOf sink_fields]. rewrite Hl. cbn [andb].
    change (controlSecret (pullFields args cs fs)) with cs.
    change (fsSecret (pullFields args cs fs)) with fs.
    destruct (connectWithSecret p 0 cs) as [c0|]; [|discriminate].
    destruct (connectWithSecret p 1 fs) as [c1|]; [|discriminate].
    unfold pullTransferred, driverErrLog.
    cbv [trace_of session_of fst snd].
    destruct (drv_result (driver p)); (split; [reflexivity|]);
      eexists; (split; [reflexivity|]);
      (split; [exact Hl|]); (split; [reflexivity|]);
      cbn [sinkArgs recv_MigrateArgs migrateArgs StateConn sink_with_fields
           sink_fields]; unfold stateConnFunc;
      by rewrite afterTransfer_unbound_state.
Qed.

Lemma pull_transfer_without_state_witness :
  exists c,
    newMigrationSink Sample.hostNoCriu
      (Sample.sinkArgsOf Sample.container false false Sample.table2) = Ok c /\
    dialsOf (trace_of (run (sink_Do Sample.peerAll Sample.op) c))
    = ["c1"; "f1"].
Proof.
  destruct (pull_transfer_without_state Sample.hostNoCriu
              (Sample.sinkArgsOf Sample.container false false Sample.table2)
              "c1" "f1" eq_refl eq_refl eq_refl eq_refl eq_refl)
    as (c & Hc & Hdo).
  exists c. split; [exact Hc|].
  exact (proj1 (Hdo Sample.peerAll Sample.op eq_refl eq_refl)).
Defined.

(** ** Decimal numerals and ports *)

(** ** Decimal numerals *)


Lemma readsAs_nil : readsAs EmptyString 0 0.
Proof. intros acc. simpl. lia. Qed.

Lemma pretty_N_char_digit d :
  (d < 10)%N ->
  network.isDigit (pretty_N_char d) = true /\
  (N_of_ascii (pretty_N_char d) - 48 = d)%N.
Proof.
  intros H.
  assert (d = 0 \/ d = 1 \/ d = 2 \/ d = 3 \/ d = 4 \/ d = 5 \/ d = 6
          \/ d = 7 \/ d = 8 \/ d = 9)%N as Hd by lia.
  destruct Hd as [->|[->|[->|[->|[->|[->|[->|[->|[->| ->]]]]]]]]];
    split; reflexivity.
Qed.

Lemma readsAs_cons s k v d :
  (d < 10)%N -> readsAs s k v ->
  readsAs (String (pretty_N_char d) s) (k + 1) (d * 10 ^ k + v).
Proof.
  intros Hd Hs acc. destruct (pretty_N_char_digit d Hd) as [Hdig Hval].
  cbn [network.parseUintLoop]. rewrite Hdig, Hval. cbn [negb].
  assert (Hpow : (10 ^ (k + 1) = 10 * 10 ^ k)%N).
  { rewrite N.pow_add_r. lia. }
  assert (Hpos : (0 < 10 ^ k)%N) by (apply N.neq_0_lt_0, N.pow_nonzero; lia).
  assert (Hmax : network.maxUint64 = 18446744073709551615%N) by reflexivity.
  assert (Hcut : (network.maxUint64 / 10 + 1 = 1844674407370955162)%N)
    by reflexivity.
  rewrite Hcut.
  destruct (N.leb_spec 1844674407370955162 acc) as [Hge|Hlt].
  { rewrite Hpow, Hmax. nia. }
  destruct (N.ltb_spec network.maxUint64 (acc * 10 + d)) as [Hov|Hok].
  { rewrite Hpow. nia. }
  specialize (Hs (acc * 10 + d)%N).
  destruct (network.parseUintLoop s (acc * 10 + d)) as [r|[]];
    rewrite ?Hpow; [subst r; lia| done | lia].
Qed.

Lemma readsAs_pretty_go x :
  forall s k v, readsAs s k v ->
    exists k', readsAs (pretty_N_go x s) k' (x * 10 ^ k + v).
Proof.
  induction (N.lt_wf_0 x) as [x _ IH]. intros s k v Hs.
  destruct (decide (x = 0%N)) as [->|Hx].
  { rewrite pretty_N_go_0. exists k. by rewrite N.mul_0_l, N.add_0_l. }
  rewrite pretty_N_go_step by lia.
  assert (Hd : (x `mod` 10 < 10)%N) by (apply N.mod_lt; lia).
  destruct (IH (x `div` 10)%N (N.div_lt x 10 ltac:(lia) ltac:(lia))
              _ _ _ (readsAs_cons s k v _ Hd Hs)) as [k' Hk'].
  exists k'.
  replace (x * 10 ^ k + v)%N
    with (x `div` 10 * 10 ^ (k + 1) + (x `mod` 10 * 10 ^ k + v))%N; [done|].
  rewrite N.pow_add_r. pose proof (N.div_mod x 10 ltac:(lia)). nia.
Qed.

(** The digit loop reads the decimal rendering of [n] as [n], or reports
    a range error when [n] does not fit into 64 bits. *)
Lemma parseUintLoop_fmtDec n :
  match network.parseUintLoop (network.fmtDec n) 0 with
  | inl r => r = n
  | inr network.ErrRange => (network.maxUint64 < n)%N
  | inr network.ErrSyntax => False
  end.
Proof.
  unfold network.fmtDec, pretty, pretty_N.
  destruct (decide (n = 0%N)) as [->|Hn]; [reflexivity|].
  destruct (readsAs_pretty_go n _ _ _ readsAs_nil) as [k Hk].
  specialize (Hk 0%N). rewrite N.pow_0_r, N.mul_1_r, N.add_0_r in Hk.
  by rewrite N.mul_0_l, N.add_0_l in Hk.
Qed.

Lemma parseUintLoop_no_dash s :
  forall acc r, network.parseUintLoop s acc = inl r ->
                network.Contains s "-" = false.
Proof.
  induction s as [|c s IH]; intros acc r; [done|].
  cbn [network.parseUintLoop network.Contains].
  destruct (network.isDigit c) eqn:Hc; cbn [negb]; [|discriminate].
  destruct (_ <=? acc)%N; [discriminate|].
  destruct (_ <? _)%N; [discriminate|].
  intros H. rewrite (IH _ _ H), orb_false_r.
  apply bool_decide_eq_false. intros ->. discriminate.
Qed.

(** A string of digits that is not a sign: [ParseInt] with the value of
    the digit loop. *)
Lemma ParseInt_fmtDec n :
  network.ParseInt (network.fmtDec n)
  = if (n <? 2 ^ 63)%N
    then (Z.of_N n, None)
    else ((2 ^ 63 - 1)%Z,
          Some (network.NumError "ParseInt" (network.fmtDec n) network.ErrRange)).
Proof.
  pose proof (parseUintLoop_fmtDec n) as Hloop.
  destruct (network.fmtDec n) as [|c rest] eqn:Hs.
  { simpl in Hloop. subst n. discriminate. }
  unfold network.ParseInt.
  assert (Hc : network.isDigit c = true).
  { cbn [network.parseUintLoop] in Hloop.
    destruct (network.isDigit c); [done|]. by simpl in Hloop. }
  destruct (decide (c = "+"%char)) as [->|_]; [discriminate|].
  destruct (decide (c = "-"%char)) as [->|_]; [discriminate|].
  unfold network.ParseUint.
  destruct (network.parseUintLoop (String c rest) 0) as [r|[|]];
    [subst r| done |].
  - cbn [negb andb]. destruct (N.ltb_spec n (2 ^ 63)) as [Hlt|Hge].
    + destruct (N.leb_spec (2 ^ 63) n); [lia|done].
    + destruct (N.leb_spec (2 ^ 63) n); [done|lia].
  - cbn [negb andb].
    assert (Hbig : (2 ^ 63 <= n)%N).
    { change network.maxUint64 with 18446744073709551615%N in Hloop.
      change (2 ^ 63)%N with 9223372036854775808%N. lia. }
    destruct (N.ltb_spec n (2 ^ 63)); [lia|].
    destruct (N.leb_spec (2 ^ 63) network.maxUint64) as [_|Hc']; [done|].
    exfalso. revert Hc'. change network.maxUint64 with 18446744073709551615%N.
    change (2 ^ 63)%N with 9223372036854775808%N. lia.
Qed.

Lemma fmtDec_nonempty n : network.fmtDec n <> EmptyString.
Proof.
  intros H. pose proof (parseUintLoop_fmtDec n) as Hloop.
  rewrite H in Hloop. simpl in Hloop. subst n. discriminate.
Qed.

Lemma fmtDec_no_dash n : network.Contains (network.fmtDec n) "-" = false.
Proof.
  pose proof (parseUintLoop_fmtDec n) as Hloop.
  destruct (network.parseUintLoop (network.fmtDec n) 0) as [r|[|]] eqn:E.
  - eapply parseUintLoop_no_dash, E.
  - done.
  - (* a range error still means every byte read so far was a digit; the
       rendering of any number consists of digits only *)
    clear Hloop E.
    unfold network.fmtDec, pretty, pretty_N.
    destruct (decide (n = 0%N)); [reflexivity|].
    assert (H : forall x s, network.Contains s "-" = false ->
                            network.Contains (pretty_N_go x s) "-" = false).
    { clear. intros x. induction (N.lt_wf_0 x) as [x _ IH]. intros s Hs.
      destruct (decide (x = 0%N)) as [->|Hx]; [by rewrite pretty_N_go_0|].
      rewrite pretty_N_go_step by lia.
      apply IH; [apply N.div_lt; lia|].
      cbn [network.Contains]. rewrite Hs, orb_false_r.
      apply bool_decide_eq_false.
      assert (Hd : (x `mod` 10 < 10)%N) by (apply N.mod_lt; lia).
      destruct (pretty_N_char_digit _ Hd) as [Hdig _].
      intros Heq. rewrite Heq in Hdig. discriminate. }
    by apply H.
Qed.

Lemma Split_no_sep s sep :
  network.Contains s sep = false -> network.Split s sep = [s].
Proof.
  induction s as [|c s IH]; [done|].
  cbn [network.Contains network.Split]. intros H.
  apply orb_false_iff in H as [Hc Hs].
  apply bool_decide_eq_false in Hc.
  destruct (decide (c = sep)); [done|]. by rewrite (IH Hs).
Qed.

Lemma Split_app_sep s1 s2 sep :
  network.Contains s1 sep = false ->
  network.Split (s1 +:+ String sep s2) sep = s1 :: network.Split s2 sep.
Proof.
  induction s1 as [|c s1 IH]; intros H.
  - change (EmptyString +:+ String sep s2) with (String sep s2).
    cbn [network.Split].
    destruct (decide (sep = sep)) as [_|Hn]; [reflexivity|by destruct Hn].
  - cbn [network.Contains] in H. apply orb_false_iff in H as [Hc Hs].
    apply bool_decide_eq_false in Hc.
    change (String c s1 +:+ String sep s2)
      with (String c (s1 +:+ String sep s2)).
    cbn [network.Split].
    destruct (decide (c = sep)); [done|]. by rewrite (IH Hs).
Qed.

Lemma Split_pieces s sep :
  Forall (fun x => network.Contains x sep = false) (network.Split s sep).
Proof.
  induction s as [|c s IH]; cbn [network.Split].
  - by constructor.
  - destruct (decide (c = sep)) as [->|Hc].
    + by constructor.
    + destruct (network.Split s sep) as [|x xs].
      * repeat constructor. cbn [network.Contains]. rewrite orb_false_r.
        by apply bool_decide_eq_false.
      * inversion IH as [|? ? Hx Hxs]; subst. constructor; [|done].
        cbn [network.Contains]. rewrite Hx, orb_false_r.
        by apply bool_decide_eq_false.
Qed.

Lemma Split_length s sep : 1 <= length (network.Split s sep).
Proof.
  induction s as [|c s IH]; cbn [network.Split]; [simpl; lia|].
  destruct (decide (c = sep)); [simpl; lia|].
  destruct (network.Split s sep); simpl in *; lia.
Qed.

Lemma ParseInt_range s v :
  network.ParseInt s = (v, None) -> (- 2 ^ 63 <= v < 2 ^ 63)%Z.
Proof.
  unfold network.ParseInt. destruct s as [|c rest]; [discriminate|].
  destruct (decide (c = "+"%char)); [|destruct (decide (c = "-"%char))];
    (match goal with |- context [network.ParseUint ?x] =>
       destruct (network.ParseUint x) as [un [[|]|]] end; [discriminate|..]);
    cbn [negb andb];
    repeat (match goal with
            | |- context [(?a <=? ?b)%N] => destruct (N.leb_spec a b)
            | |- context [(?a <? ?b)%N] => destruct (N.ltb_spec a b)
            end; try discriminate);
    intros [= <-]; change (2 ^ 63)%N with 9223372036854775808%N in *; lia.
Qed.

Lemma ParseInt_no_dash s v :
  network.Contains s "-" = false ->
  network.ParseInt s = (v, None) -> (0 <= v < 2 ^ 63)%Z.
Proof.
  intros Hs H. pose proof (ParseInt_range s v H) as Hr. split; [|lia].
  revert H. unfold network.ParseInt. destruct s as [|c rest]; [discriminate|].
  cbn [network.Contains] in Hs. apply orb_false_iff in Hs as [Hc _].
  apply bool_decide_eq_false in Hc.
  destruct (decide (c = "+"%char)); [|destruct (decide (c = "-"%char)); [done|]];
    (match goal with |- context [network.ParseUint ?x] =>
       destruct (network.ParseUint x) as [un [[|]|]] end; [discriminate|..]);
    cbn [negb andb];
    repeat (match goal with
            | |- context [(?a <=? ?b)%N] => destruct (N.leb_spec a b)
            end; try discriminate);
    intros [= <-]; lia.
Qed.

Lemma wrap64_id z : (- 2 ^ 63 <= z < 2 ^ 63)%Z -> network.wrap64 z = z.
Proof.
  intros H. unfold network.wrap64.
  rewrite Z.mod_small; lia.
Qed.

(** X5: [networkValidPort] accepts the empty string and, among decimal
    numerals, exactly those of 1 up to and including 65536. *)
Theorem networkValidPort_decimal :
  network.networkValidPort EmptyString = None /\
  forall n : N,
    network.networkValidPort (network.fmtDec n) = None
    <-> (1 <= n <= 65536)%N.
Proof.
  split; [reflexivity|]. intros n. unfold network.networkValidPort.
  destruct (decide (network.fmtDec n = EmptyString)) as [H|_];
    [by destruct (fmtDec_nonempty n)|].
  rewrite ParseInt_fmtDec.
  destruct (N.ltb_spec n (2 ^ 63)) as [Hlt|Hge].
  - repeat case_bool_decide; cbn [orb]; split; intros ?; try done; lia.
  - split; [done|]. change (2 ^ 63)%N with 9223372036854775808%N in Hge. lia.
Qed.

(** X6: a port range that [ParsePortRange] accepts never starts below
    zero; its size is at least one and the range ends inside int64, except
    for the range from 0 to the largest int64, whose size has wrapped
    around to the smallest. *)
Theorem ParsePortRange_success (r : string) (base size : Z) :
  network.ParsePortRange r = (base, size, None) ->
  (0 <= base < 2 ^ 63)%Z /\
  ((1 <= size /\ base + size <= 2 ^ 63)%Z \/
   (base = 0 /\ size = - 2 ^ 63)%Z).
Proof.
  unfold network.ParsePortRange.
  pose proof (Split_pieces r "-") as Hp.
  pose proof (Split_length r "-") as Hl.
  destruct (network.Split r "-") as [|e0 [|e1 rest]]; [simpl in Hl; lia|..].
  - cbn [length nth]. rewrite bool_decide_false by lia.
    inversion Hp as [|? ? H0 _]; subst.
    destruct (network.ParseInt e0) as [b [err|]] eqn:E0; [discriminate|].
    rewrite bool_decide_false by lia. intros [= <- <-].
    pose proof (ParseInt_no_dash _ _ H0 E0). lia.
  - cbn [length nth]. case_bool_decide; [discriminate|].
    inversion Hp as [|? ? H0 Hp']; subst.
    inversion Hp' as [|? ? H1 _]; subst.
    destruct (network.ParseInt e0) as [b [err|]] eqn:E0; [discriminate|].
    rewrite bool_decide_true by lia.
    destruct (network.ParseInt e1) as [e [err|]] eqn:E1; [discriminate|].
    case_bool_decide as Hle; [discriminate|]. intros [= <- <-].
    pose proof (ParseInt_no_dash _ _ H0 E0) as Hb.
    pose proof (ParseInt_no_dash _ _ H1 E1) as He.
    split; [lia|].
    rewrite (wrap64_id (e - b)) by lia.
    destruct (decide (e - b + 1 < 2 ^ 63)%Z) as [Hs|Hs].
    + left. rewrite wrap64_id by lia. lia.
    + right. assert (e - b + 1 = 2 ^ 63)%Z as -> by lia.
      split; [lia|reflexivity].
Qed.

Lemma ParsePortRange_success_witness :
  network.ParsePortRange "8080-8089" = (8080%Z, 10%Z, None) /\
  (0 <= 8080 < 2 ^ 63)%Z.
Proof.
  split; [reflexivity|].
  exact (proj1 (ParsePortRange_success "8080-8089" 8080 10 eq_refl)).
Defined.

(** X7: on decimal numerals [ParsePortRange] reads a single port as a
    range of size one and [a-b] with a < b as the range of size b - a + 1
    starting at a; a range whose end is not above its start, [a-a]
    included, is refused. *)
Theorem ParsePortRange_decimal (a b : N) :
  (a < 2 ^ 63)%N ->
  network.ParsePortRange (network.fmtDec a) = (Z.of_N a, 1%Z, None) /\
  ((a < b)%N -> (b < 2 ^ 63 - 1)%N ->
   network.ParsePortRange (network.fmtDec a +:+ "-" +:+ network.fmtDec b)
   = (Z.of_N a, (Z.of_N b - Z.of_N a + 1)%Z, None)) /\
  ((b <= a)%N ->
   network.ParsePortRange (network.fmtDec a +:+ "-" +:+ network.fmtDec b)
   = ((-1)%Z, (-1)%Z,
      Some (network.Errorf "End port should be higher than start port" []))).
Proof.
  intros Ha.
  assert (Hpa : network.ParseInt (network.fmtDec a) = (Z.of_N a, None)).
  { rewrite ParseInt_fmtDec. by destruct (N.ltb_spec a (2 ^ 63)); [|lia]. }
  assert (Hsplit : network.Split
                     (network.fmtDec a +:+ "-" +:+ network.fmtDec b) "-"
                   = [network.fmtDec a; network.fmtDec b]).
  { change ("-" +:+ network.fmtDec b) with (String "-" (network.fmtDec b)).
    rewrite Split_app_sep by apply fmtDec_no_dash.
    by rewrite Split_no_sep by apply fmtDec_no_dash. }
  change (2 ^ 63)%N with 9223372036854775808%N in *.
  split; [|split].
  - unfold network.ParsePortRange.
    rewrite Split_no_sep by apply fmtDec_no_dash. cbn [length nth].
    rewrite bool_decide_false by lia. rewrite Hpa.
    by rewrite bool_decide_false by lia.
  - intros Hab Hb. unfold network.ParsePortRange. rewrite Hsplit.
    cbn [length nth]. rewrite bool_decide_false by lia. rewrite Hpa.
    rewrite bool_decide_true by lia. rewrite ParseInt_fmtDec.
    change (2 ^ 63)%N with 9223372036854775808%N.
    destruct (N.ltb_spec b 9223372036854775808); [|lia].
    rewrite bool_decide_false by lia.
    rewrite (wrap64_id (Z.of_N b - Z.of_N a)) by lia.
    by rewrite wrap64_id by lia.
  - intros Hba. unfold network.ParsePortRange. rewrite Hsplit.
    cbn [length nth]. rewrite bool_decide_false by lia. rewrite Hpa.
    rewrite bool_decide_true by lia. rewrite ParseInt_fmtDec.
    change (2 ^ 63)%N with 9223372036854775808%N.
    destruct (N.ltb_spec b 9223372036854775808); [|lia].
    by rewrite bool_decide_true by lia.
Qed.

Lemma ParsePortRange_decimal_witness :
  network.ParsePortRange (network.fmtDec 80 +:+ "-" +:+ network.fmtDec 90)
  = (80%Z, 11%Z, None).
Proof.
  exact (proj1 (proj2 (ParsePortRange_decimal 80 90 eq_refl))
           eq_refl eq_refl).
Defined.

(** ** Random names *)

Lemma length_app_string s1 s2 :
  String.length (s1 +:+ s2) = String.length s1 + String.length s2.
Proof. induction s1 as [|c s1 IH]; simpl; [done|]. by rewrite IH. Qed.

Lemma hexValue_hexDigit n :
  (n < 16)%N -> hexValue (network.hexDigit n) = Some n.
Proof.
  intros H. destruct n as [|p]; [reflexivity|].
  do 4 (try destruct p as [p|p|]); solve [reflexivity | lia].
Qed.

Lemma decodeHex_EncodeToString bs :
  decodeHex (network.EncodeToString bs) = Some bs.
Proof.
  induction bs as [|b bs IH]; [reflexivity|].
  pose proof (Byte.to_N_bounded b) as Hb.
  cbn [network.EncodeToString decodeHex].
  rewrite !hexValue_hexDigit
    by (try apply N.mod_lt; try apply N.Div0.div_lt_upper_bound; lia).
  cbn [mbind option_bind].
  replace (Byte.to_N b / 16 * 16 + Byte.to_N b mod 16)%N with (Byte.to_N b)
    by (rewrite (N.div_mod (Byte.to_N b) 16) at 1; lia).
  rewrite Byte.of_to_N. cbn [mbind option_bind]. rewrite IH. reflexivity.
Qed.

(** X8: [RandomDevName] yields the empty string exactly for a prefix of
    more than five bytes; otherwise it yields the prefix followed by the
    hex encoding of the four random bytes: two digits per byte, high
    nibble first, eight lower-case hex digits that read back as these
    bytes.  The name is thirteen bytes at most. *)
Theorem RandomDevName_shape (b0 b1 b2 b3 : Byte.byte) (prefix : string) :
  let name := network.RandomDevName (b0, b1, b2, b3) prefix in
  let digits b :=
    [network.hexDigit (Byte.to_N b / 16); network.hexDigit (Byte.to_N b mod 16)]
  in
  let suffix :=
    String.string_of_list_ascii (digits b0 ++ digits b1 ++ digits b2 ++ digits b3) in
  (name = EmptyString <-> 5 < String.length prefix) /\
  (String.length prefix <= 5 -> name = prefix +:+ suffix) /\
  String.length suffix = 8 /\
  Forall (fun c => is_Some (hexValue c)) (String.list_ascii_of_string suffix) /\
  decodeHex suffix = Some [b0; b1; b2; b3] /\
  String.length name <= 13.
Proof.
  cbv zeta. unfold network.RandomDevName.
  change (String.string_of_list_ascii _)
    with (network.EncodeToString [b0; b1; b2; b3]).
  set (hex := network.EncodeToString [b0; b1; b2; b3]).
  assert (Hhex : String.length hex = 8) by reflexivity.
  assert (Hdec : decodeHex hex = Some [b0; b1; b2; b3])
    by apply decodeHex_EncodeToString.
  pose proof (length_app_string prefix hex) as Hlen.
  assert (Hdig : Forall (fun c => is_Some (hexValue c))
                   (String.list_ascii_of_string hex)).
  { assert (Hd : forall n, (n < 16)%N ->
                  is_Some (hexValue (network.hexDigit n))).
    { intros n Hn. rewrite hexValue_hexDigit by done. by eexists. }
    pose proof (Byte.to_N_bounded b0). pose proof (Byte.to_N_bounded b1).
    pose proof (Byte.to_N_bounded b2). pose proof (Byte.to_N_bounded b3).
    subst hex. cbn [network.EncodeToString String.list_ascii_of_string].
    repeat (constructor;
            [apply Hd;
             first [apply N.mod_lt; lia
                   |apply N.Div0.div_lt_upper_bound; lia]|]).
    constructor. }
  case_bool_decide as Hlong.
  - repeat split; try done; try lia. simpl. lia.
  - repeat split; try done; try lia.
    intros Hnil. rewrite Hnil in Hlen. simpl in Hlen. lia.
Qed.

Lemma fmtHex_digit n :
  (n < 16)%N -> network.fmtHex n = String (network.hexDigit n) EmptyString.
Proof.
  intros H. destruct n as [|p]; [reflexivity|].
  do 4 (try destruct p as [p|p|]); solve [reflexivity | lia].
Qed.

(** X9: [randomHwaddr] returns the 17-byte address 00:16:3e:hh:hh:hh
    whose last six digits are the first six draws as hex digits, in
    order. *)
Theorem randomHwaddr_shape (int31n : nat -> N) :
  (forall k, (int31n k < 16)%N) ->
  let h k := network.hexDigit (int31n k) in
  network.randomHwaddr int31n
  = "00:16:3e:" +:+
    String (h 0) (String (h 1) (String ":"
      (String (h 2) (String (h 3) (String ":"
        (String (h 4) (String (h 5) EmptyString))))))) /\
  String.length (network.randomHwaddr int31n) = 17.
Proof.
  intros Hr h. unfold network.randomHwaddr.
  assert (E : network.hwaddrLoop int31n "00:16:3e:xx:xx:xx" 0
              = "00:16:3e:" +:+
                network.fmtHex (int31n 0) +:+ network.fmtHex (int31n 1) +:+ ":"
                +:+ network.fmtHex (int31n 2) +:+ network.fmtHex (int31n 3)
                +:+ ":" +:+ network.fmtHex (int31n 4)
                +:+ network.fmtHex (int31n 5) +:+ EmptyString) by reflexivity.
  rewrite E, !fmtHex_digit by apply Hr. split; reflexivity.
Qed.

Lemma randomHwaddr_shape_witness :
  network.randomHwaddr (fun _ => 10%N) = "00:16:3e:aa:aa:aa".
Proof.
  exact (proj1 (randomHwaddr_shape (fun _ => 10%N) (fun _ => eq_refl))).
Defined.

(** ** Host devices *)



Lemma vlanScan_first TrimSpace pre line post parent vlan dflt iface :
  Forall (fun l => ~ vlanLineMatches TrimSpace parent vlan l) pre ->
  vlanLineFor TrimSpace parent vlan iface line ->
  network.vlanScan TrimSpace (pre ++ line :: post) parent vlan dflt = iface.
Proof.
  intros Hpre (s0 & s1 & s2 & Hsplit & H1 & H2 & H0).
  induction Hpre as [|l pre Hl _ IH]; cbn [app network.vlanScan].
  - rewrite Hsplit, H1, H2, !bool_decide_true by done. exact H0.
  - destruct (network.Split l "|") as [|a [|b [|c [|? ?]]]] eqn:E; try exact IH.
    case_bool_decide as Hp; [|exact IH].
    case_bool_decide as Hv; [|exact IH].
    exfalso. apply Hl. exists (TrimSpace a), a, b, c. by repeat split.
Qed.

Lemma vlanScan_none TrimSpace lines parent vlan dflt :
  Forall (fun l => ~ vlanLineMatches TrimSpace parent vlan l) lines ->
  network.vlanScan TrimSpace lines parent vlan dflt = dflt.
Proof.
  induction 1 as [|l lines Hl _ IH]; cbn [network.vlanScan]; [done|].
  destruct (network.Split l "|") as [|a [|b [|c [|? ?]]]] eqn:E; try exact IH.
  case_bool_decide as Hp; [|exact IH].
  case_bool_decide as Hv; [|exact IH].
  exfalso. apply Hl. exists (TrimSpace a), a, b, c. by repeat split.
Qed.

(** X10: [GetHostDevice] returns the parent itself when no VLAN is given.
    With a VLAN it returns the device of the first line of the VLAN table
    that names this VLAN on this parent, and [parent.vlan] when the table
    is missing or has no such line. *)
Theorem GetHostDevice_lookup (TrimSpace : string -> string)
    (parent vlan : string) :
  (forall cfg, network.GetHostDevice TrimSpace cfg parent EmptyString = parent)
  /\
  (vlan <> EmptyString ->
   network.GetHostDevice TrimSpace None parent vlan = parent +:+ "." +:+ vlan
   /\
   (forall lines,
      Forall (fun l => ~ vlanLineMatches TrimSpace parent vlan l) lines ->
      network.GetHostDevice TrimSpace (Some lines) parent vlan
      = parent +:+ "." +:+ vlan) /\
   (forall pre line post iface,
      Forall (fun l => ~ vlanLineMatches TrimSpace parent vlan l) pre ->
      vlanLineFor TrimSpace parent vlan iface line ->
      network.GetHostDevice TrimSpace (Some (pre ++ line :: post)) parent vlan
      = iface)).
Proof.
  split; [done|]. intros Hv. unfold network.GetHostDevice.
  destruct (decide (vlan = EmptyString)); [done|].
  split; [done|]. split.
  - intros lines H. by apply vlanScan_none.
  - intros pre line post iface Hpre Hline. by apply vlanScan_first.
Qed.

Lemma GetHostDevice_lookup_witness :
  network.GetHostDevice id
    (Some ["VLAN Dev name | VLAN ID"; "vlan100|100|eth0"; "other|100|eth0"])
    "eth0" "100" = "vlan100".
Proof.
  apply (proj2 (proj2 (proj2 (GetHostDevice_lookup id "eth0" "100")
                         ltac:(discriminate)))
           ["VLAN Dev name | VLAN ID"] "vlan100|100|eth0" ["other|100|eth0"]
           "vlan100").
  - repeat constructor. intros (iface & s0 & s1 & s2 & H & _). discriminate.
  - exists "vlan100", "100", "eth0". repeat split.
Defined.

(** X11: for a device without a vlan property, [isInUseByDevice] does not
    depend on the VLAN table: the device uses the network iff it is a nic,
    the network name is not empty, and its network or its parent property
    is that name.  Such a device is also reported by [NICUsesNetwork]
    for every list of networks holding that name. *)
Theorem isInUseByDevice_no_vlan (TrimSpace : string -> string)
    (cfg : option (list string)) (name : string) (d : gmap string string) :
  network.get d "vlan" = EmptyString ->
  network.isInUseByDevice TrimSpace cfg name d
  = bool_decide (network.get d "type" = "nic")
    && negb (bool_decide (name = EmptyString))
    && (bool_decide (network.get d "network" = name)
        || bool_decide (network.get d "parent" = name)) /\
  (network.isInUseByDevice TrimSpace cfg name d = true ->
   forall networks, name ∈ networks ->
     network.NICUsesNetwork d networks = true).
Proof.
  intros Hvlan.
  assert (Hform : network.isInUseByDevice TrimSpace cfg name d
    = bool_decide (network.get d "type" = "nic")
      && negb (bool_decide (name = EmptyString))
      && (bool_decide (network.get d "network" = name)
          || bool_decide (network.get d "parent" = name))).
  { unfold network.isInUseByDevice, network.GetHostDevice. rewrite Hvlan.
    destruct (decide (EmptyString = EmptyString)) as [_|Hn];
      [|by destruct Hn].
    repeat case_bool_decide; cbn; congruence. }
  split; [exact Hform|]. rewrite Hform. intros Huse networks Hin.
  apply andb_true_iff in Huse as [_ Hor].
  induction networks as [|n networks IH]; [by apply elem_of_nil in Hin|].
  cbn [network.NICUsesNetwork].
  apply elem_of_cons in Hin as [->|Hin].
  - apply orb_true_iff in Hor as [H|H]; apply bool_decide_eq_true in H;
      rewrite H; repeat case_bool_decide; cbn; congruence.
  - match goal with |- (if ?b then _ else _) = _ => destruct b end;
      [reflexivity|exact (IH Hin)].
Qed.


Lemma isInUseByDevice_no_vlan_witness :
  network.isInUseByDevice id None "lxdbr0"
    NetSample.bridgedNic = true /\
  network.NICUsesNetwork NetSample.bridgedNic
    ["br1"; "lxdbr0"] = true.
Proof.
  destruct (isInUseByDevice_no_vlan id None "lxdbr0"
              NetSample.bridgedNic
              ltac:(vm_compute; reflexivity))
    as [Hform Hnic].
  assert (Huse : network.isInUseByDevice id None "lxdbr0"
            NetSample.bridgedNic = true)
    by (rewrite Hform; vm_compute; reflexivity).
  split; [exact Huse|].
  apply (Hnic Huse). set_solver.
Defined.

(** ** Polling and subnets *)

Lemma bindWaitLoop_spec pe ifName n :
  forall i,
    let o := network.bindWaitLoop pe ifName n i in
    o.1 <= n /\
    (forall j, j < o.1 -> network.InterfaceExists (pe (i + j)) ifName = false) /\
    match o.2 with
    | None => o.1 < n /\ network.InterfaceExists (pe (i + o.1)) ifName = true
    | Some e =>
        o.1 = n /\
        e = network.Errorf "Bind of interface %q took too long" [ifName]
    end.
Proof.
  induction n as [|n IH]; intros i; cbn [network.bindWaitLoop].
  - cbn. split; [lia|]. split; [intros; lia|done].
  - destruct (network.InterfaceExists (pe i) ifName) eqn:E.
    + cbn. split; [lia|]. split; [intros; lia|].
      split; [lia|]. by rewrite Nat.add_0_r.
    + specialize (IH (S i)).
      destruct (network.bindWaitLoop pe ifName n (S i)) as [sleeps err].
      cbn in *. destruct IH as (Hle & Hbefore & Hres).
      split; [lia|]. split.
      * intros [|j] Hj; [by rewrite Nat.add_0_r|].
        replace (i + S j) with (S (i + j)) by lia. apply Hbefore. lia.
      * destruct err as [e|].
        -- destruct Hres as [-> ->]. done.
        -- destruct Hres as [Hlt Hex]. split; [lia|].
           by replace (i + S sleeps) with (S (i + sleeps)) by lia.
Qed.

(** X12: [InterfaceBindWait] polls at most ten times, 50 ms apart.  It
    succeeds at the first poll that sees the interface, having slept once
    per earlier poll, and fails after ten sleeps when none of the ten
    polls sees it; an empty interface name always fails. *)
Theorem InterfaceBindWait_polls (pathExistsAt : nat -> string -> bool)
    (ifName : string) :
  let o := network.InterfaceBindWait pathExistsAt ifName in
  o.1 <= 10 /\
  (forall j, j < o.1 ->
     network.InterfaceExists (pathExistsAt j) ifName = false) /\
  match o.2 with
  | None =>
      o.1 < 10 /\ network.InterfaceExists (pathExistsAt o.1) ifName = true
  | Some e =>
      o.1 = 10 /\
      e = network.Errorf "Bind of interface %q took too long" [ifName]
  end /\
  (ifName = EmptyString -> o.1 = 10 /\ is_Some o.2).
Proof.
  intros o. subst o. unfold network.InterfaceBindWait.
  pose proof (bindWaitLoop_spec pathExistsAt ifName 10 0) as (H1 & H2 & H3).
  cbv zeta in *. split; [exact H1|]. split; [exact H2|]. split; [exact H3|].
  intros ->.
  destruct (network.bindWaitLoop pathExistsAt EmptyString 10 0) as [k [e|]];
    cbn in *.
  - by destruct H3 as [-> _].
  - by destruct H3 as [_ H3].
Qed.

(** X13: [SubnetParseAppend] is all or nothing.  When every string parses
    it returns the given subnets followed by the parsed ones in order;
    otherwise it returns no list at all and the error wraps that of the
    first string that does not parse, naming that string. *)
Theorem SubnetParseAppend_all_or_nothing
    (ParseCIDR : string -> network.IPNet + network.error)
    (strs : list string) :
  forall subnets,
    match network.SubnetParseAppend ParseCIDR subnets strs with
    | (Some l, None) =>
        exists parsed,
          l = subnets ++ parsed /\
          Forall2 (fun s n => ParseCIDR s = inl n) strs parsed
    | (None, Some e) =>
        exists pre s rest err,
          strs = pre ++ s :: rest /\
          Forall (fun s => exists n, ParseCIDR s = inl n) pre /\
          ParseCIDR s = inr err /\
          e = network.Wrapf err "Invalid subnet %q" [s]
    | _ => False
    end.
Proof.
  induction strs as [|s strs IH]; intros subnets;
    cbn [network.SubnetParseAppend].
  - exists []. by rewrite app_nil_r.
  - destruct (ParseCIDR s) as [n|err] eqn:E.
    + specialize (IH (subnets ++ [n])).
      destruct (network.SubnetParseAppend ParseCIDR (subnets ++ [n]) strs)
        as [[l|] [e|]]; try done.
      * destruct IH as (parsed & -> & HF). exists (n :: parsed).
        split; [by rewrite <- app_assoc|]. by constructor.
      * destruct IH as (pre & s' & rest & err & -> & Hpre & Hs' & ->).
        exists (s :: pre), s', rest, err. repeat split; try done.
        constructor; [by exists n|done].
    + exists [], s, strs, err. repeat split; done.
Qed.


(** X14: a subnet returned by [randomSubnetV4] is the candidate of one of
    at most 100 attempts; it parsed, was not in the routing table and did
    not answer, and every earlier candidate was rejected.  The function
    fails, with the empty string, exactly when all 100 candidates were
    rejected. *)
Theorem randomSubnetV4_unused
    (ParseCIDR : string -> network.IPNet + network.error) (Intn : nat -> N)
    (inRoutingTable pingSubnet : nat -> network.IPNet -> bool) :
  let rejected :=
    attemptRejected ParseCIDR Intn inRoutingTable pingSubnet in
  match network.randomSubnetV4 ParseCIDR Intn inRoutingTable pingSubnet
  with
  | (cidr, None) =>
      exists j subnet,
        j < 100 /\ cidr = network.cidrV4 Intn j /\
        ParseCIDR cidr = inl subnet /\
        inRoutingTable j subnet = false /\ pingSubnet j subnet = false /\
        forall k, k < j -> rejected k
  | (cidr, Some e) =>
      cidr = EmptyString /\
      e = network.Errorf "Failed to automatically find an unused IPv4 subnet, manual configuration required" [] /\
      forall k, k < 100 -> rejected k
  end.
Proof.
  intros rejected. unfold network.randomSubnetV4.
  assert (H : forall n i,
    match network.subnetV4Loop ParseCIDR Intn inRoutingTable pingSubnet
            n i with
    | (cidr, None) =>
        exists j subnet,
          i <= j < i + n /\ cidr = network.cidrV4 Intn j /\
          ParseCIDR cidr = inl subnet /\
          inRoutingTable j subnet = false /\ pingSubnet j subnet = false /\
          forall k, i <= k < j -> rejected k
    | (cidr, Some e) =>
        cidr = EmptyString /\
        e = network.Errorf "Failed to automatically find an unused IPv4 subnet, manual configuration required" [] /\
        forall k, i <= k < i + n -> rejected k
    end).
  { induction n as [|n IH]; intros i; cbn [network.subnetV4Loop].
    - split; [done|]. split; [done|]. intros; lia.
    - assert (Hrej : rejected i ->
        match network.subnetV4Loop ParseCIDR Intn inRoutingTable
                pingSubnet n (S i) with
        | (cidr, None) =>
            exists j subnet,
              i <= j < i + S n /\ cidr = network.cidrV4 Intn j /\
              ParseCIDR cidr = inl subnet /\
              inRoutingTable j subnet = false /\ pingSubnet j subnet = false /\
              forall k, i <= k < j -> rejected k
        | (cidr, Some e) =>
            cidr = EmptyString /\
            e = network.Errorf "Failed to automatically find an unused IPv4 subnet, manual configuration required" [] /\
            forall k, i <= k < i + S n -> rejected k
        end).
      { intros Hi. specialize (IH (S i)).
        destruct (network.subnetV4Loop ParseCIDR Intn inRoutingTable
                    pingSubnet n (S i)) as [cidr [e|]].
        - destruct IH as (-> & -> & Hall). split; [done|]. split; [done|].
          intros k Hk. destruct (decide (k = i)) as [->|]; [done|].
          apply Hall. lia.
        - destruct IH as (j & subnet & Hj & -> & Hp & Hr & Hg & Hbefore).
          exists j, subnet. split; [lia|]. repeat split; try done.
          intros k Hk. destruct (decide (k = i)) as [->|]; [done|].
          apply Hbefore. lia. }
      destruct (ParseCIDR (network.cidrV4 Intn i)) as [subnet|err] eqn:Hp.
      + destruct (inRoutingTable i subnet) eqn:Hr.
        { apply Hrej. unfold rejected, attemptRejected. rewrite Hp. by left. }
        destruct (pingSubnet i subnet) eqn:Hg.
        { apply Hrej. unfold rejected, attemptRejected. rewrite Hp. by right. }
        exists i, subnet. split; [lia|]. repeat split; try done.
        intros k Hk. lia.
      + apply Hrej. unfold rejected, attemptRejected. by rewrite Hp. }
  specialize (H 100 0).
  destruct (network.subnetV4Loop ParseCIDR Intn inRoutingTable
              pingSubnet 100 0) as [cidr [e|]].
  - destruct H as (-> & -> & Hall). repeat split. intros k Hk. apply Hall. lia.
  - destruct H as (j & subnet & Hj & -> & Hp & Hr & Hg & Hbefore).
    exists j, subnet. split; [lia|]. repeat split; try done.
    intros k Hk. apply Hbefore. lia.
Qed.

(** ** Subnet containment *)





Lemma leadingOnes_byte v : leadingOnesOk v = true.
Proof. destruct v; vm_compute; reflexivity. Qed.

Lemma prefixByte_land t1 t2 :
  (t1 <= t2)%Z -> N.land (prefixByte t1) (prefixByte t2) = prefixByte t1.
Proof.
  intros H.
  assert (Hlow : forall t, (t <= 0)%Z -> prefixByte t = 0%N).
  { intros t Ht. unfold prefixByte. by destruct (decide (t <= 0)%Z). }
  assert (Hhigh : forall t, (8 <= t)%Z -> prefixByte t = 255%N).
  { intros t Ht. unfold prefixByte.
    destruct (decide (t <= 0)%Z); [lia|]. by destruct (decide (8 <= t)%Z). }
  assert (C1 : (t1 <= 0 \/ t1 = 1 \/ t1 = 2 \/ t1 = 3 \/ t1 = 4 \/ t1 = 5
                \/ t1 = 6 \/ t1 = 7 \/ 8 <= t1)%Z) by lia.
  assert (C2 : (t2 <= 0 \/ t2 = 1 \/ t2 = 2 \/ t2 = 3 \/ t2 = 4 \/ t2 = 5
                \/ t2 = 6 \/ t2 = 7 \/ 8 <= t2)%Z) by lia.
  destruct C1 as [H1|C1].
  { by rewrite (Hlow t1 H1). }
  destruct C2 as [H2|C2]; [lia|].
  repeat (destruct C1 as [->|C1];
          [repeat (destruct C2 as [->|C2]; [first [lia|reflexivity]|]);
           rewrite (Hhigh t2 C2); reflexivity|]).
  rewrite (Hhigh t1 C1), (Hhigh t2) by lia. reflexivity.
Qed.

(** A mask whose length is not -1 is [r] ones followed by zeros. *)
Lemma simpleMaskLoop_canonical mask :
  forall n r,
    (0 <= n)%Z -> network.simpleMaskLoop mask n = r -> r <> (-1)%Z ->
    (n <= r)%Z /\
    forall i, i < length mask ->
      network.byteAt mask i = prefixByte (r - n - 8 * Z.of_nat i).
Proof.
  induction mask as [|v rest IH]; intros n r Hn Hr Hne;
    cbn [network.simpleMaskLoop] in Hr.
  - subst r. split; [lia|]. intros i Hi. simpl in Hi. lia.
  - destruct (N.eqb_spec (Byte.to_N v) 255) as [Hff|Hnf].
    + destruct (IH (n + 8)%Z r ltac:(lia) Hr Hne) as [Hle Hbytes].
      split; [lia|]. intros [|i] Hi.
      * unfold network.byteAt. cbn [nth]. rewrite Hff.
        unfold prefixByte. destruct (decide _); [lia|].
        destruct (decide _); [done|lia].
      * unfold network.byteAt in *. cbn [nth]. cbn [length] in Hi.
        rewrite (Hbytes i ltac:(lia)). f_equal. lia.
    + pose proof (leadingOnes_byte v) as Hv. unfold leadingOnesOk in Hv.
      revert Hr Hv.
      destruct (network.leadingOnes 8 (Byte.to_N v)) as [k v']. intros Hr Hv.
      destruct (N.eqb_spec v' 0) as [Hv0|Hv']; cbn [negb] in Hr; [|congruence].
      cbn [implb] in Hv.
      apply andb_true_iff in Hv as [Hv Hbyte].
      apply andb_true_iff in Hv as [Hk0 Hk8].
      apply Z.leb_le in Hk0, Hk8. apply N.eqb_eq in Hbyte.
      destruct (network.isZeros rest) eqn:Hz; cbn [negb] in Hr; [|congruence].
      subst r. split; [lia|].
      assert (Hk7 : (k < 8)%Z).
      { destruct (decide (k = 8%Z)) as [->|]; [|lia].
        exfalso. apply Hnf. rewrite Hbyte. reflexivity. }
      intros [|i] Hi.
      * unfold network.byteAt. cbn [nth]. rewrite Hbyte. f_equal. lia.
      * unfold network.byteAt. cbn [nth]. cbn [length] in Hi.
        unfold network.isZeros in Hz. rewrite forallb_forall in Hz.
        assert (Hin : In (nth i rest Byte.x00) rest) by (apply nth_In; lia).
        apply Hz in Hin. apply N.eqb_eq in Hin. rewrite Hin.
        unfold prefixByte. destruct (decide _); [done|lia].
Qed.



Lemma To4_length ip y : network.IP_To4 ip = Some y -> length y = 4.
Proof.
  unfold network.IP_To4. destruct (Nat.eqb_spec (length ip) 4) as [H4|H4].
  { by intros [= <-]. }
  destruct (Nat.eqb_spec (length ip) 16) as [H16|H16]; cbn [andb];
    [|discriminate].
  destruct (_ && _); [|discriminate].
  intros [= <-]. rewrite length_drop. lia.
Qed.

Lemma To4_None_length ip : network.IP_To4 ip = None -> length ip <> 4.
Proof.
  unfold network.IP_To4. destruct (Nat.eqb_spec (length ip) 4); [discriminate|done].
Qed.

(** [networkNumberAndMask] in terms of the normalised address. *)
Lemma networkNumberAndMask_norm n :
  network.networkNumberAndMask n =
  let ip := norm4 (network.IP n) in
  if (length ip =? 4)%nat then
    if (length (network.Mask n) =? 4)%nat then (ip, network.Mask n)
    else if (length (network.Mask n) =? 16)%nat then (ip, drop 12 (network.Mask n))
    else ([], [])
  else if (length ip =? 16)%nat then
    if (length (network.Mask n) =? 16)%nat then (ip, network.Mask n)
    else ([], [])
  else ([], []).
Proof.
  unfold network.networkNumberAndMask, norm4.
  destruct (network.IP_To4 (network.IP n)) as [y|] eqn:E.
  - rewrite (To4_length _ _ E). cbn.
    destruct (length (network.Mask n) =? 4)%nat; [done|].
    by destruct (length (network.Mask n) =? 16)%nat.
  - pose proof (To4_None_length _ E) as H4.
    destruct (Nat.eqb_spec (length (network.IP n)) 4); [done|].
    destruct (Nat.eqb_spec (length (network.IP n)) 16) as [H16|H16];
      cbn [negb]; [|done].
    rewrite H16. cbn.
    destruct (Nat.eqb_spec (length (network.Mask n)) 4) as [M4|M4].
    + rewrite M4. reflexivity.
    + reflexivity.
Qed.

Lemma Contains_norm n ip :
  network.IPNet_Contains n ip =
  let '(nn, m) := network.networkNumberAndMask n in
  (length (norm4 ip) =? length nn)%nat && network.containsLoop nn (norm4 ip) m.
Proof.
  unfold network.IPNet_Contains, norm4.
  destruct (network.networkNumberAndMask n) as [nn m].
  by destruct (_ =? _)%nat.
Qed.

Lemma containsLoop_trans nnO :
  forall y x mO mI,
    maskLe mO mI ->
    length nnO = length y -> length y = length x -> length mO = length y ->
    network.containsLoop nnO y mO = true ->
    network.containsLoop y x mI = true ->
    network.containsLoop nnO x mO = true.
Proof.
  induction nnO as [|a nnO IH]; intros y x mO mI Hle Hl1 Hl2 Hl3 H1 H2.
  { done. }
  destruct y as [|b y]; [done|]. destruct x as [|c x]; [done|].
  destruct mO as [|k mO]; [done|].
  inversion Hle as [|? k' ? mI' Hk Hle']; subst.
  cbn [network.containsLoop] in *.
  destruct (N.eqb_spec (N.land (Byte.to_N a) (Byte.to_N k))
              (N.land (Byte.to_N b) (Byte.to_N k))) as [E1|]; [|done].
  destruct (N.eqb_spec (N.land (Byte.to_N b) (Byte.to_N k'))
              (N.land (Byte.to_N c) (Byte.to_N k'))) as [E2|]; [|done].
  cbn [negb] in *.
  assert (E : N.land (Byte.to_N a) (Byte.to_N k)
              = N.land (Byte.to_N c) (Byte.to_N k)).
  { rewrite E1. rewrite <- Hk at 1 2.
    rewrite (N.land_comm (Byte.to_N k) (Byte.to_N k')), !N.land_assoc.
    by rewrite E2. }
  rewrite E, N.eqb_refl. cbn [negb].
  eapply (IH y x mO mI'); simpl in *; try done; lia.
Qed.

Lemma maskLe_canonical oM iM :
  length oM = length iM ->
  network.simpleMaskLength oM <> (-1)%Z ->
  network.simpleMaskLength iM <> (-1)%Z ->
  (network.simpleMaskLength oM <= network.simpleMaskLength iM)%Z ->
  maskLe oM iM.
Proof.
  intros Hlen HO HI Hle.
  destruct (simpleMaskLoop_canonical oM 0 _ ltac:(lia) eq_refl HO) as [_ HbO].
  destruct (simpleMaskLoop_canonical iM 0 _ ltac:(lia) eq_refl HI) as [_ HbI].
  apply Forall2_same_length_lookup_2; [done|].
  intros i a b Ha Hb.
  pose proof (lookup_lt_Some _ _ _ Ha) as Hi.
  specialize (HbO i Hi). specialize (HbI i ltac:(lia)).
  unfold network.byteAt in *. rewrite (nth_lookup_Some _ _ _ _ Ha) in HbO.
  rewrite (nth_lookup_Some _ _ _ _ Hb) in HbI.
  rewrite HbO, HbI. apply prefixByte_land.
  change (network.simpleMaskLoop oM 0) with (network.simpleMaskLength oM).
  change (network.simpleMaskLoop iM 0) with (network.simpleMaskLength iM). lia.
Qed.

Lemma maskLe_drop k oM iM : maskLe oM iM -> maskLe (drop k oM) (drop k iM).
Proof. apply Forall2_drop. Qed.

Lemma containsLoop_nil nn m : network.containsLoop nn [] m = true.
Proof. by destruct nn. Qed.

Lemma length_zero_nil {A} (l : list A) : length l = 0 -> l = [].
Proof. by destruct l. Qed.

(** [SubnetContains] spelled out. *)
Lemma SubnetContains_true outer inner :
  network.SubnetContains (Some outer) (Some inner) = true <->
  network.IPNet_Contains outer (network.IP inner) = true /\
  (network.Mask_Size (network.Mask inner)).2
    = (network.Mask_Size (network.Mask outer)).2 /\
  ((network.Mask_Size (network.Mask outer)).1
   <= (network.Mask_Size (network.Mask inner)).1)%Z.
Proof.
  unfold network.SubnetContains.
  destruct (network.IPNet_Contains outer (network.IP inner)); cbn [negb];
    [|split; [done|by intros [? _]]].
  destruct (network.Mask_Size (network.Mask outer)) as [oOnes oBits].
  destruct (network.Mask_Size (network.Mask inner)) as [iOnes iBits].
  cbn [fst snd].
  destruct (Z.eqb_spec iBits oBits); cbn [negb];
    [|split; [done|by intros (_ & ? & _)]].
  destruct (Z.ltb_spec iOnes oOnes); split; try done;
    try (intros (_ & _ & ?); lia);
    try (intros _; repeat split; [done|lia]).
Qed.

(** Under an outer prefix mask, an inner subnet whose address lies in the
    outer one and whose mask is at least as long stays inside it. *)
Lemma IPNet_Contains_mono (outer inner : network.IPNet) :
  network.IPNet_Contains outer (network.IP inner) = true ->
  (let '(outerOnes, outerBits) := network.Mask_Size (network.Mask outer) in
   let '(innerOnes, innerBits) := network.Mask_Size (network.Mask inner) in
   if negb (innerBits =? outerBits)%Z then false
   else if (innerOnes <? outerOnes)%Z then false else true) = true ->
  network.simpleMaskLength (network.Mask outer) <> (-1)%Z ->
  forall ip,
    network.IPNet_Contains inner ip = true ->
    network.IPNet_Contains outer ip = true.
Proof.
  intros H1 Hsub HcanO ip Hin. unfold network.Mask_Size in Hsub.
  destruct (Z.eqb_spec (network.simpleMaskLength (network.Mask outer)) (-1));
    [done|].
  rewrite !Contains_norm, !networkNumberAndMask_norm in *. cbv zeta in *.
  destruct (Z.eqb_spec (network.simpleMaskLength (network.Mask inner)) (-1))
    as [HncI|HcanI].
  - (* the inner mask is no prefix mask: the outer mask is empty *)
    destruct (Z.eqb_spec 0 (Z.of_nat (length (network.Mask outer)) * 8))
      as [Hbits|]; [|discriminate].
    assert (HlO : length (network.Mask outer) = 0) by lia.
    rewrite HlO in *. cbn in H1.
    assert (HnnO : (if (length (norm4 (network.IP outer)) =? 4)%nat
                    then ([], [])
                    else if (length (norm4 (network.IP outer)) =? 16)%nat
                         then ([], []) else ([], []))
                   = (@nil Byte.byte, @nil Byte.byte)).
    { by repeat destruct (_ =? _)%nat. }
    rewrite HnnO in *. apply andb_true_iff in H1 as [H1 _].
    apply Nat.eqb_eq in H1. cbn [length] in H1.
    rewrite H1 in Hin. cbn in Hin.
    apply andb_true_iff in Hin as [Hin _]. apply Nat.eqb_eq in Hin.
    cbn [length] in Hin. rewrite Hin.
    change (0 =? 4)%nat with false. change (0 =? 16)%nat with false.
    cbv iota. rewrite HnnO. reflexivity.
  - destruct (Z.eqb_spec (Z.of_nat (length (network.Mask inner)) * 8)
                (Z.of_nat (length (network.Mask outer)) * 8)) as [Hbits|];
      [|discriminate].
    cbn [negb] in Hsub.
    destruct (Z.ltb_spec (network.simpleMaskLength (network.Mask inner))
                (network.simpleMaskLength (network.Mask outer))) as [|Hones];
      [discriminate|].
    assert (HlM : length (network.Mask inner) = length (network.Mask outer)) by lia.
    pose proof (maskLe_canonical _ _ (eq_sym HlM) HcanO HcanI Hones) as Hle.
    rewrite HlM in Hin.
    destruct (Nat.eqb_spec (length (norm4 (network.IP inner))) 4) as [I4|I4];
    destruct (Nat.eqb_spec (length (norm4 (network.IP inner))) 16) as [I16|I16];
    try (exfalso; lia);
    destruct (Nat.eqb_spec (length (norm4 (network.IP outer))) 4) as [O4|O4];
    destruct (Nat.eqb_spec (length (norm4 (network.IP outer))) 16) as [O16|O16];
    try (exfalso; lia);
    destruct (Nat.eqb_spec (length (network.Mask outer)) 4) as [M4|M4];
    destruct (Nat.eqb_spec (length (network.Mask outer)) 16) as [M16|M16];
    try (exfalso; lia);
    apply andb_true_iff in H1 as [H1 H1'];
    apply andb_true_iff in Hin as [Hin Hin'];
    apply Nat.eqb_eq in H1, Hin; cbn [length] in H1, Hin;
    try (exfalso; lia);
    try (apply length_zero_nil in Hin; rewrite Hin;
         rewrite containsLoop_nil;
         first [ reflexivity
               | cbn [length]; rewrite andb_true_r; apply Nat.eqb_eq;
                 cbn [length]; lia ]);
    (apply andb_true_iff; split; [apply Nat.eqb_eq; lia|]).
    + eapply containsLoop_trans; [exact Hle| | | | exact H1' | exact Hin'];
        lia.
    + eapply containsLoop_trans;
        [exact (maskLe_drop 12 _ _ Hle)| | | | exact H1' | exact Hin'];
        rewrite ?length_drop; lia.
    + eapply containsLoop_trans; [exact Hle| | | | exact H1' | exact Hin'];
        lia.
Qed.

(** X15: when [SubnetContains] says yes and the outer mask is a proper
    prefix mask, every address the inner subnet contains is contained in
    the outer subnet. *)
Theorem SubnetContains_sound (outer inner : network.IPNet) :
  network.SubnetContains (Some outer) (Some inner) = true ->
  network.simpleMaskLength (network.Mask outer) <> (-1)%Z ->
  forall ip,
    network.IPNet_Contains inner ip = true ->
    network.IPNet_Contains outer ip = true.
Proof.
  intros Hsub HcanO. unfold network.SubnetContains in Hsub.
  destruct (network.IPNet_Contains outer (network.IP inner)) eqn:H1;
    [|discriminate].
  cbn [negb] in Hsub.
  exact (IPNet_Contains_mono outer inner H1 Hsub HcanO).
Qed.

Lemma SubnetContains_sound_witness :
  network.SubnetContains (Some NetSample.net10) (Some NetSample.net10_1) = true
  /\
  network.IPNet_Contains NetSample.net10_1 NetSample.host10_1_2_3 = true /\
  network.IPNet_Contains NetSample.net10 NetSample.host10_1_2_3 = true.
Proof.
  split; [reflexivity|]. split; [reflexivity|].
  apply (SubnetContains_sound NetSample.net10 NetSample.net10_1 eq_refl).
  - discriminate.
  - reflexivity.
Defined.

(** X16: [SubnetContains] composes: under an outermost prefix mask, a
    subnet inside a subnet inside the outermost one is inside the outermost
    one; and it refuses a nil subnet on either side. *)
Theorem SubnetContains_trans (a b c : network.IPNet) :
  network.simpleMaskLength (network.Mask a) <> (-1)%Z ->
  network.SubnetContains (Some a) (Some b) = true ->
  network.SubnetContains (Some b) (Some c) = true ->
  network.SubnetContains (Some a) (Some c) = true /\
  network.SubnetContains None (Some c) = false /\
  network.SubnetContains (Some a) None = false.
Proof.
  intros Hcan Hab Hbc. split; [|done].
  pose proof Hab as Hab'. unfold network.SubnetContains in Hab'.
  destruct (network.IPNet_Contains a (network.IP b)) eqn:H1; [|discriminate].
  cbn [negb] in Hab'.
  apply SubnetContains_true in Hab as (_ & Hbits1 & Hones1).
  apply SubnetContains_true in Hbc as (Hin & Hbits2 & Hones2).
  apply SubnetContains_true. split; [|split].
  - exact (IPNet_Contains_mono a b H1 Hab' Hcan _ Hin).
  - congruence.
  - lia.
Qed.

Lemma SubnetContains_trans_witness :
  network.SubnetContains (Some NetSample.net10) (Some NetSample.net10_1_2)
  = true.
Proof.
  apply (SubnetContains_trans NetSample.net10 NetSample.net10_1
           NetSample.net10_1_2); [discriminate|reflexivity|reflexivity].
Defined.

(** ** Hardware addresses and iteration *)












Lemma SetBytes_bound buf :
  forall acc,
    (fold_left (fun a b => a * 256 + Byte.to_N b) buf acc
     < (acc + 1) * 256 ^ N.of_nat (length buf))%N.
Proof.
  induction buf as [|b buf IH]; intros acc; cbn [fold_left length].
  - cbn. lia.
  - specialize (IH (acc * 256 + Byte.to_N b)%N).
    pose proof (Byte.to_N_bounded b) as Hb.
    rewrite Nat2N.inj_succ, N.pow_succ_r'.
    eapply N.lt_le_trans; [exact IH|]. nia.
Qed.

Lemma bytesGo_length fuel :
  forall n acc k,
    (n < 256 ^ N.of_nat k)%N ->
    length (network.bytesGo fuel n acc) <= k + length acc.
Proof.
  induction fuel as [|fuel IH]; intros n acc k Hn; cbn [network.bytesGo]; [lia|].
  destruct (N.eqb_spec n 0); [lia|].
  destruct k as [|k]; [cbn in Hn; lia|].
  rewrite Nat2N.inj_succ, N.pow_succ_r' in Hn.
  assert (Hd : (n / 256 < 256 ^ N.of_nat k)%N).
  { apply N.Div0.div_lt_upper_bound. lia. }
  specialize (IH _ (network.byteOf n :: acc) _ Hd). cbn [length] in IH. lia.
Qed.

(** X18: [SubnetIterate] goes through [big.Int], whose bytes come back
    without leading zeros: for a subnet whose address starts with a zero
    byte the first candidate is already too short to be contained, so
    [ipFunc] is never called and nil is returned. *)
Theorem SubnetIterate_leading_zero (fuel : nat) (subnet : network.IPNet)
    (ipFunc : list Byte.byte -> option network.error)
    (rest : list Byte.byte) :
  0 < fuel ->
  (network.networkNumberAndMask subnet).1 = Byte.x00 :: rest ->
  network.SubnetIterate fuel subnet ipFunc = ([], Some None).
Proof.
  intros Hfuel Hnn. unfold network.SubnetIterate.
  destruct fuel as [|fuel]; [lia|]. cbn [network.iterateLoop].
  set (startIP := match network.IP_To4 (network.IP subnet) with
                  | Some ip => ip
                  | None => default [] (network.IP_To16 (network.IP subnet))
                  end).
  assert (Hlen : length (Byte.x00 :: rest) = 4
                 \/ length (Byte.x00 :: rest) = 16).
  { rewrite <- Hnn, networkNumberAndMask_norm. cbv zeta.
    destruct (Nat.eqb_spec (length (norm4 (network.IP subnet))) 4) as [E4|];
      [|destruct (Nat.eqb_spec (length (norm4 (network.IP subnet))) 16)
          as [E16|]];
      repeat (match goal with
              | |- context [(?a =? ?b)%nat] => destruct (Nat.eqb_spec a b)
              end); cbn [fst length]; revert Hnn;
      rewrite networkNumberAndMask_norm; cbv zeta;
      repeat (match goal with
              | |- context [(?a =? ?b)%nat] => destruct (Nat.eqb_spec a b)
              end; try lia); cbn [fst]; try discriminate; lia. }
  assert (Hstart : startIP = Byte.x00 :: rest).
  { subst startIP. rewrite <- Hnn.
    rewrite networkNumberAndMask_norm in Hnn |- *. cbv zeta in *.
    unfold norm4 in *.
    destruct (network.IP_To4 (network.IP subnet)) as [y|] eqn:E4.
    - revert Hnn.
      repeat (match goal with
              | |- context [(?a =? ?b)%nat] => destruct (Nat.eqb_spec a b)
              end); cbn [fst]; try discriminate; done.
    - pose proof (To4_None_length _ E4) as Hne. unfold network.IP_To16.
      revert Hnn.
      repeat (match goal with
              | |- context [(?a =? ?b)%nat] => destruct (Nat.eqb_spec a b)
              end; try lia); cbn [fst default]; try discriminate; done. }
  rewrite Hstart.
  assert (Hshort : length (network.Bytes (network.SetBytes (Byte.x00 :: rest)))
                   <= length rest).
  { unfold network.Bytes, network.SetBytes. cbn [fold_left].
    change (0 * 256 + Byte.to_N Byte.x00)%N with 0%N.
    pose proof (SetBytes_bound rest 0) as Hb.
    rewrite N.add_0_l, N.mul_1_l in Hb.
    pose proof (bytesGo_length
                  (N.size_nat (fold_left (fun a b => a * 256 + Byte.to_N b)%N
                                 rest 0%N)) _ [] _ Hb) as Hl.
    cbn [length] in Hl. lia. }
  set (ip := network.Bytes (network.SetBytes (Byte.x00 :: rest))) in *.
  assert (Hc : network.IPNet_Contains subnet ip = false).
  { rewrite Contains_norm.
    destruct (network.networkNumberAndMask subnet) as [nn m].
    cbn [fst] in Hnn. subst nn.
    apply andb_false_iff. left. apply Nat.eqb_neq.
    unfold norm4. destruct (network.IP_To4 ip) as [y|] eqn:E.
    - pose proof (To4_length _ _ E) as Hy. cbn [length] in *.
      intros Heq. destruct Hlen as [Hlen|Hlen]; [|lia].
      (* a four-byte subnet: the candidate has at most three bytes *)
      revert E. unfold network.IP_To4.
      destruct (Nat.eqb_spec (length ip) 4); [lia|].
      destruct (Nat.eqb_spec (length ip) 16); [lia|]. discriminate.
    - cbn [length] in *. lia. }
  rewrite Hc. reflexivity.
Qed.

Lemma SubnetIterate_leading_zero_witness :
  network.SubnetIterate 1 NetSample.nat64 (fun _ => None) = ([], Some None).
Proof.
  apply (SubnetIterate_leading_zero 1 NetSample.nat64 (fun _ => None)
           (tail (network.IP NetSample.nat64))); [lia|reflexivity].
Defined.

(** X19: [SubnetIterate] hands [ipFunc] only addresses the subnet
    contains, and stops at the first error: when it returns an error, that
    is the error [ipFunc] gave for the last address handed over, and
    [ipFunc] succeeded on every address before. *)
Theorem SubnetIterate_visits (fuel : nat) (subnet : network.IPNet)
    (ipFunc : list Byte.byte -> option network.error) :
  let o := network.SubnetIterate fuel subnet ipFunc in
  Forall (fun ip => network.IPNet_Contains subnet ip = true) o.1 /\
  match o.2 with
  | Some (Some e) =>
      exists pre ip,
        o.1 = pre ++ [ip] /\ ipFunc ip = Some e /\
        Forall (fun x => ipFunc x = None) pre
  | _ => Forall (fun x => ipFunc x = None) o.1
  end.
Proof.
  unfold network.SubnetIterate.
  generalize (network.SetBytes
                match network.IP_To4 (network.IP subnet) with
                | Some ip => ip
                | None => default [] (network.IP_To16 (network.IP subnet))
                end).
  induction fuel as [|fuel IH]; intros start; cbn [network.iterateLoop].
  - by split; constructor.
  - destruct (network.IPNet_Contains subnet (network.Bytes start)) eqn:Hc;
      cbn [negb]; [|by split; constructor].
    destruct (ipFunc (network.Bytes start)) as [err|] eqn:Hf.
    + cbn [fst snd]. split; [by repeat constructor|].
      exists [], (network.Bytes start). by repeat split.
    + specialize (IH (start + 1)%N). cbv zeta in IH.
      destruct (network.iterateLoop fuel subnet ipFunc (start + 1))
        as [visited r]. cbn [fst snd] in *. destruct IH as [IHc IHr].
      split; [by constructor|].
      destruct r as [[e|]|].
      * destruct IHr as (pre & ip & -> & Hip & Hpre).
        exists (network.Bytes start :: pre), ip. repeat split; try done.
        by constructor.
      * by constructor.
      * by constructor.
Qed.
